(** * Roadmap orchestrator (generator/roadmap.py): a shallow embedding

    The file follows [generator/roadmap.py].  The [Roadmap] object is a
    record, its methods are state transformers that may raise, and every
    call the orchestrator makes into a collaborator class ([Title],
    [Timeline], [Group], [Marker], [Footer], [Painter]) is recorded in a
    call log, so that the order of layout and draw calls can be stated. *)

From Stdlib Require Import ZArith Lia Ascii String List Bool.
From Stdlib Require Import QArith.
From stdpp Require Import base list strings pretty.
Import ListNotations.

Local Open Scope string_scope.
Local Open Scope Z_scope.
Local Open Scope list_scope.

(** ** Python exceptions that the orchestrator can surface *)

Inductive exn : Type :=
  | AttributeError          (* attribute access on None *)
  | TypeError               (* strptime() argument 1 must be str *)
  | ValueError              (* time data does not match format *)
  | CallerError (tag : string)       (* raised by the caller's own code *)
  | CollaboratorError (tag : string) (* raised inside a collaborator class *).

(** ** datetime and [datetime.strptime(_, "%Y-%m-%d")] *)

Module Datetime.

Record datetime : Type := mk_datetime {
  year : Z; month : Z; day : Z;
  hour : Z; minute : Z; second : Z
}.

Definition midnight (y m d : Z) : datetime := mk_datetime y m d 0 0 0.

Definition is_leap (y : Z) : bool :=
  (y mod 4 =? 0) && (negb (y mod 100 =? 0) || (y mod 400 =? 0)).

Definition days_in_month (y m : Z) : Z :=
  if m =? 2 then (if is_leap y then 29 else 28)
  else if (m =? 4) || (m =? 6) || (m =? 9) || (m =? 11) then 30
  else 31.

(** [datetime.MINYEAR = 1], [datetime.MAXYEAR = 9999]. *)
Definition valid_date (y m d : Z) : bool :=
  (1 <=? y) && (y <=? 9999) && (1 <=? m) && (m <=? 12)
  && (1 <=? d) && (d <=? days_in_month y m).

(** What the Python interpreter that imports roadmap.py fixes.

    [today_at_definition] is the day on which roadmap.py was imported: the
    default of [start] is evaluated once, when [set_timeline] is defined.

    [unicode_decimal cp] is [unicodedata.decimal(chr(cp), None)] for a code
    point above ASCII: the value of a decimal digit (category Nd), [None]
    for every other character.  Which characters these are depends on the
    Unicode version of the interpreter; the ASCII digits are the same in
    all of them and are written out in [decimal] below. *)
Class Interpreter : Type := {
  today_at_definition : datetime;
  unicode_decimal : Z -> option Z
}.

Definition code (c : ascii) : Z := Z.of_nat (nat_of_ascii c).

Definition in_range (lo hi : ascii) (c : ascii) : bool :=
  (code lo <=? code c) && (code c <=? code hi).

Definition digit (c : ascii) : Z := code c - 48.

(** A [str] is held as its UTF-8 encoding, one [ascii] per byte, so that a
    character of the regular expression may span up to four of them.  A
    byte from 128 to 191 continues a character and carries six bits. *)
Definition continuation (c : ascii) : option Z :=
  if (128 <=? code c) && (code c <=? 191) then Some (code c - 128) else None.

(** The first code point of a string and what follows it; [None] on the
    empty string and on bytes that are no UTF-8 encoding of a character. *)
Definition decode_utf8 (s : string) : option (Z * string) :=
  match s with
  | EmptyString => None
  | String a s1 =>
      if code a <? 128 then Some (code a, s1)
      else if (194 <=? code a) && (code a <=? 223) then
        match s1 with
        | String b s2 =>
            match continuation b with
            | Some x => Some ((code a - 192) * 64 + x, s2)
            | None => None
            end
        | EmptyString => None
        end
      else if (224 <=? code a) && (code a <=? 239) then
        match s1 with
        | String b (String c s3) =>
            match continuation b, continuation c with
            | Some x, Some y =>
                let cp := ((code a - 224) * 64 + x) * 64 + y in
                if 2048 <=? cp then Some (cp, s3) else None
            | _, _ => None
            end
        | _ => None
        end
      else if (240 <=? code a) && (code a <=? 244) then
        match s1 with
        | String b (String c (String d s4)) =>
            match continuation b, continuation c, continuation d with
            | Some x, Some y, Some z =>
                let cp := (((code a - 240) * 64 + x) * 64 + y) * 64 + z in
                if (65536 <=? cp) && (cp <=? 1114111) then Some (cp, s4) else None
            | _, _, _ => None
            end
        | _ => None
        end
      else None
  end.

Section Parsing.
Context `{!Interpreter}.

(** The value of a code point as a decimal digit: what [\d] tests in a
    pattern on [str] and what [int()] reads. *)
Definition decimal (cp : Z) : option Z :=
  if (48 <=? cp) && (cp <=? 57) then Some (cp - 48)
  else if cp <? 128 then None
  else unicode_decimal cp.

(** [\d]: one character that is a decimal digit, with its value. *)
Definition digit_at (s : string) : option (Z * string) :=
  match decode_utf8 s with
  | Some (cp, rest) =>
      match decimal cp with
      | Some v => Some (v, rest)
      | None => None
      end
  | None => None
  end.

(** The directive [%Y] is the regular expression [\d\d\d\d]; the group is
    converted with [int()]. *)
Definition match_Y (s : string) : option (Z * string) :=
  match digit_at s with
  | Some (a, s1) =>
    match digit_at s1 with
    | Some (b, s2) =>
      match digit_at s2 with
      | Some (c, s3) =>
        match digit_at s3 with
        | Some (d, rest) => Some (1000 * a + 100 * b + 10 * c + d, rest)
        | None => None
        end
      | None => None
      end
    | None => None
    end
  | None => None
  end.

(** The directive [%m] is [1[0-2]|0[1-9]|[1-9]]; alternatives are tried
    from left to right. *)
Definition match_m (s : string) : option (Z * string) :=
  match s with
  | String a rest =>
      let two :=
        match rest with
        | String b rest' =>
            if Ascii.eqb a "1" && in_range "0" "2" b then Some (10 + digit b, rest')
            else if Ascii.eqb a "0" && in_range "1" "9" b then Some (digit b, rest')
            else None
        | EmptyString => None
        end in
      match two with
      | Some r => Some r
      | None => if in_range "1" "9" a then Some (digit a, rest) else None
      end
  | EmptyString => None
  end.

(** The directive [%d] is [3[0-1]|[1-2]\d|0[1-9]|[1-9]| [1-9]]: the second
    alternative is the only one with [\d]. *)
Definition match_d (s : string) : option (Z * string) :=
  match s with
  | String a rest =>
      let two :=
        match rest with
        | String b rest' =>
            if Ascii.eqb a "3" && in_range "0" "1" b then Some (30 + digit b, rest')
            else
              match (if in_range "1" "2" a then digit_at rest else None) with
              | Some (v, rest'') => Some (10 * digit a + v, rest'')
              | None =>
                  if Ascii.eqb a "0" && in_range "1" "9" b then Some (digit b, rest')
                  else None
              end
        | EmptyString => None
        end in
      match two with
      | Some r => Some r
      | None =>
          if in_range "1" "9" a then Some (digit a, rest)
          else match rest with
               | String b rest' =>
                   if Ascii.eqb a " " && in_range "1" "9" b then Some (digit b, rest')
                   else None
               | EmptyString => None
               end
      end
  | EmptyString => None
  end.

Definition match_dash (s : string) : option string :=
  match s with
  | String c rest => if Ascii.eqb c "-" then Some rest else None
  | EmptyString => None
  end.

(** [datetime.strptime(s, "%Y-%m-%d")] on a [str], after CPython's
    [_strptime]: the three groups separated by dashes, nothing left over
    ("unconverted data remains" otherwise), and a date that exists.  Only
    [\d] goes beyond ASCII: a year such as [２０２４] in fullwidth digits
    is read as 2024, a month in such digits is refused. *)
Definition strptime_ymd (s : string) : exn + datetime :=
  match match_Y s with
  | Some (y, s1) =>
    match match_dash s1 with
    | Some s2 =>
      match match_m s2 with
      | Some (m, s3) =>
        match match_dash s3 with
        | Some s4 =>
          match match_d s4 with
          | Some (d, EmptyString) =>
              if valid_date y m d then inr (midnight y m d) else inl ValueError
          | _ => inl ValueError
          end
        | None => inl ValueError
        end
      | None => inl ValueError
      end
    | None => inl ValueError
    end
  | None => inl ValueError
  end.

End Parsing.

(** The text that [strftime("%Y-%m-%d")] gives for a date: the year on
four digits, month and day on two. *)
Definition digit_char (z : Z) : ascii := ascii_of_nat (Z.to_nat (48 + z)).

Definition iso_date (y m d : Z) : string :=
  String (digit_char (y / 1000 mod 10)) (String (digit_char (y / 100 mod 10))
  (String (digit_char (y / 10 mod 10)) (String (digit_char (y mod 10))
  (String "-" (String (digit_char (m / 10 mod 10)) (String (digit_char (m mod 10))
  (String "-" (String (digit_char (d / 10 mod 10)) (String (digit_char (d mod 10))
  EmptyString))))))))).

End Datetime.
Export Datetime.

(** ** Python values that reach the orchestrator *)

(** A geometry value is a Python number: an [int] or a [float].  The
    orchestrator never computes with them; it stores them, hands them to
    collaborators and formats them in the dump. *)
Inductive num : Type :=
  | Int (z : Z)
  | Float (q : Q).

(** A dynamically typed argument, as far as [set_timeline] tells them apart. *)
Inductive pyobj : Type :=
  | PyStr (s : string)
  | PyDate (d : datetime)
  | PyInt (z : Z)
  | PyNone.

(** Modelled from the spec: generator/timelinemode.py is not part of the
    sources; the spec lists the timeline modes day, week, month, quarter. *)
Inductive TimelineMode : Type := DAILY | WEEKLY | MONTHLY | QUARTERLY.

(** ** The collaborator classes

    Modelled from the spec: generator/painter.py, title.py, footer.py,
    timeline.py, group.py and marker.py are not part of the sources.  The
    records carry the constructor keywords and the attributes that
    roadmap.py reads, plus the geometry the spec's data model gives them. *)

(** Modelled from the spec: the drawing primitives of the rendering backend. *)
Inductive Primitive : Type :=
  | draw_rectangle (x y w h : num) (fill_colour : string)
  | draw_diamond (x y w h : num) (fill_colour font_colour : string)
  | draw_text (x y : num) (text font : string) (size : Z) (colour : string)
  | draw_line (x1 y1 x2 y2 : num) (colour : string) (width : Z) (style : string).

(** Modelled from the spec: the canvas (width, height, background colour),
    the primitives drawn on it so far and what [save_surface] persisted. *)
Record Painter : Type := mk_Painter {
  Painter_width : Z;
  Painter_height : Z;
  Painter_output_file_name : string;
  Painter_background_colour : option string;
  Painter_surface : list Primitive;
  Painter_saved : option (list Primitive)
}.

Definition Painter_init (width height : Z) (output_file_name : string) : Painter :=
  mk_Painter width height output_file_name None [] None.

Definition Painter_set_background_colour (colour : string) (p : Painter) : Painter :=
  mk_Painter (Painter_width p) (Painter_height p) (Painter_output_file_name p)
             (Some colour) (Painter_surface p) (Painter_saved p).

Definition Painter_save_surface (p : Painter) : Painter :=
  mk_Painter (Painter_width p) (Painter_height p) (Painter_output_file_name p)
             (Painter_background_colour p) (Painter_surface p)
             (Some (Painter_surface p)).

(** The canvas of the spec's data model. *)
Definition canvas (p : Painter) : Z * Z * option string :=
  (Painter_width p, Painter_height p, Painter_background_colour p).

Record Title : Type := mk_Title {
  Title_text : string;
  Title_font : string;
  Title_font_size : Z;
  Title_font_colour : string;
  Title_x : num; Title_y : num; Title_width : num; Title_height : num
}.

Definition Title_set_text (text : string) (t : Title) : Title :=
  mk_Title text (Title_font t) (Title_font_size t) (Title_font_colour t)
           (Title_x t) (Title_y t) (Title_width t) (Title_height t).

Record Footer : Type := mk_Footer {
  Footer_text : string;
  Footer_font : string;
  Footer_font_size : Z;
  Footer_font_colour : string;
  Footer_x : num; Footer_y : num; Footer_width : num; Footer_height : num
}.

Definition Footer_set_text (text : string) (f : Footer) : Footer :=
  mk_Footer text (Footer_font f) (Footer_font_size f) (Footer_font_colour f)
            (Footer_x f) (Footer_y f) (Footer_width f) (Footer_height f).

Record TimelineItem : Type := mk_TimelineItem {
  TimelineItem_text : string;
  TimelineItem_value : num;
  TimelineItem_box_x : num; TimelineItem_box_y : num;
  TimelineItem_box_width : num; TimelineItem_box_height : num;
  TimelineItem_text_x : num; TimelineItem_text_y : num
}.

Record Timeline : Type := mk_Timeline {
  Timeline_mode : TimelineMode;
  Timeline_start : datetime;
  Timeline_number_of_items : Z;
  Timeline_font : string;
  Timeline_font_size : Z;
  Timeline_font_colour : string;
  Timeline_fill_colour : string;
  Timeline_timeline_items : list TimelineItem
}.

Record Milestone : Type := mk_Milestone {
  Milestone_text : string;
  Milestone_date : datetime;
  Milestone_diamond_x : num; Milestone_diamond_y : num;
  Milestone_diamond_width : num; Milestone_diamond_height : num;
  Milestone_font_colour : string;
  Milestone_fill_colour : string
}.

(** A task owns milestones and nested (parallel) tasks. *)
#[warnings="-register-all"] Inductive Task : Type :=
  mk_Task (text : string) (start end_ : datetime)
          (box_x box_y box_width box_height : num)
          (milestones : list Milestone) (tasks : list Task).

Definition Task_text (t : Task) := let 'mk_Task x _ _ _ _ _ _ _ _ := t in x.
Definition Task_start (t : Task) := let 'mk_Task _ x _ _ _ _ _ _ _ := t in x.
Definition Task_end (t : Task) := let 'mk_Task _ _ x _ _ _ _ _ _ := t in x.
Definition Task_box_x (t : Task) := let 'mk_Task _ _ _ x _ _ _ _ _ := t in x.
Definition Task_box_y (t : Task) := let 'mk_Task _ _ _ _ x _ _ _ _ := t in x.
Definition Task_box_width (t : Task) := let 'mk_Task _ _ _ _ _ x _ _ _ := t in x.
Definition Task_box_height (t : Task) := let 'mk_Task _ _ _ _ _ _ x _ _ := t in x.
Definition Task_milestones (t : Task) := let 'mk_Task _ _ _ _ _ _ _ x _ := t in x.
Definition Task_tasks (t : Task) := let 'mk_Task _ _ _ _ _ _ _ _ x := t in x.

Record Group : Type := mk_Group {
  Group_text : string;
  Group_font : string;
  Group_font_size : Z;
  Group_font_colour : string;
  Group_fill_colour : string;
  Group_text_alignment : string;
  Group_box_x : num; Group_box_y : num;
  Group_box_width : num; Group_box_height : num;
  Group_tasks : list Task
}.

Record Marker : Type := mk_Marker {
  Marker_font : string;
  Marker_font_size : Z;
  Marker_font_colour : string;
  Marker_line_colour : string;
  Marker_line_width : Z;
  Marker_line_style : string;
  Marker_label_x : num; Marker_label_y : num;
  Marker_line_x : num; Marker_line_top : num; Marker_line_bottom : num
}.

(** The behaviour of the collaborator classes, which roadmap.py only
    calls.  A layout method mutates its receiver and may touch the painter;
    a draw method paints; each may raise, and then leaves its arguments as
    they were.  The two formatting functions stand for Python's [str] and
    [round(_, 2)] on a [float]. *)
Class Collaborators : Type := {
  str_float : Q -> string;
  round2_float : Q -> Q;
  new_Title : forall (text font : string) (font_size : Z) (font_colour : string), Title;
  Title_set_draw_position : Title -> Painter -> exn + Title * Painter;
  Title_draw : Title -> Painter -> exn + Painter;
  new_Footer : forall (text font : string) (font_size : Z) (font_colour : string), Footer;
  Footer_set_draw_position : Footer -> Painter -> Z -> exn + Footer * Painter;
  Footer_draw : Footer -> Painter -> exn + Painter;
  new_Timeline : forall (mode : TimelineMode) (start : datetime) (number_of_items : Z)
                        (font : string) (font_size : Z) (font_colour fill_colour : string),
                 Timeline;
  Timeline_set_draw_position : Timeline -> Painter -> exn + Timeline * Painter;
  Timeline_draw : Timeline -> Painter -> exn + Painter;
  new_Marker : forall (font : string) (font_size : Z) (font_colour line_colour : string)
                      (line_width : Z) (line_style : string), Marker;
  Marker_set_label_draw_position : Marker -> Painter -> Timeline -> exn + Marker * Painter;
  Marker_set_line_draw_position : Marker -> Painter -> exn + Marker * Painter;
  Marker_draw : Marker -> Painter -> exn + Painter;
  new_Group : forall (text font : string) (font_size : Z)
                     (font_colour fill_colour text_alignment : string), Group;
  Group_set_draw_position : Group -> Painter -> option Timeline -> exn + Group * Painter;
  Group_draw : Group -> Painter -> exn + Painter
}.

(** ** The Roadmap object *)

Record Roadmap : Type := mk_Roadmap {
  width : Z;
  height : Z;
  show_current_date_marker : bool;
  title : option Title;
  timeline : option Timeline;
  footer : option Footer;
  marker : option Marker;
  painter : Painter;          (* self.__painter *)
  groups : list Group;
  last_y_pos : Z;             (* self.__last_y_pos *)
  mode : TimelineMode         (* self.__mode *)
}.

Definition set_show_current_date_marker (b : bool) (r : Roadmap) : Roadmap :=
  mk_Roadmap (width r) (height r) b (title r) (timeline r) (footer r) (marker r)
             (painter r) (groups r) (last_y_pos r) (mode r).
Definition set_title_attr (t : option Title) (r : Roadmap) : Roadmap :=
  mk_Roadmap (width r) (height r) (show_current_date_marker r) t (timeline r) (footer r)
             (marker r) (painter r) (groups r) (last_y_pos r) (mode r).
Definition set_timeline_attr (t : option Timeline) (r : Roadmap) : Roadmap :=
  mk_Roadmap (width r) (height r) (show_current_date_marker r) (title r) t (footer r)
             (marker r) (painter r) (groups r) (last_y_pos r) (mode r).
Definition set_footer_attr (f : option Footer) (r : Roadmap) : Roadmap :=
  mk_Roadmap (width r) (height r) (show_current_date_marker r) (title r) (timeline r) f
             (marker r) (painter r) (groups r) (last_y_pos r) (mode r).
Definition set_marker_attr (m : option Marker) (r : Roadmap) : Roadmap :=
  mk_Roadmap (width r) (height r) (show_current_date_marker r) (title r) (timeline r)
             (footer r) m (painter r) (groups r) (last_y_pos r) (mode r).
Definition set_painter (p : Painter) (r : Roadmap) : Roadmap :=
  mk_Roadmap (width r) (height r) (show_current_date_marker r) (title r) (timeline r)
             (footer r) (marker r) p (groups r) (last_y_pos r) (mode r).
Definition set_groups (gs : list Group) (r : Roadmap) : Roadmap :=
  mk_Roadmap (width r) (height r) (show_current_date_marker r) (title r) (timeline r)
             (footer r) (marker r) (painter r) gs (last_y_pos r) (mode r).

(** ** The world a method runs in *)

(** The calls the orchestrator makes into the collaborators, with the
    receiver as it was when the call was made.  A group is named by its
    position in [self.groups]. *)
Inductive Call : Type :=
  | Call_Painter (width height : Z) (output_file_name : string)
  | Call_set_background_colour (colour : string)
  | Call_save_surface
  | Call_Title_set_draw_position (t : Title)
  | Call_Timeline_set_draw_position (tl : Timeline)
  | Call_Marker_set_label_draw_position (m : Marker) (tl : Timeline)
  | Call_Group_set_draw_position (i : nat) (g : Group) (tl : option Timeline)
  | Call_Marker_set_line_draw_position (m : Marker)
  | Call_Footer_set_draw_position (f : Footer) (last_y_pos : Z)
  | Call_Title_draw (t : Title)
  | Call_Timeline_draw (tl : Timeline)
  | Call_Group_draw (i : nat) (g : Group)
  | Call_Marker_draw (m : Marker)
  | Call_Footer_draw (f : Footer).

Record World : Type := mk_World {
  self : Roadmap;
  calls : list Call;          (* oldest first *)
  stdout : list string        (* printed lines, oldest first *)
}.

(** A method body: it updates the world and returns or raises. *)
Definition M (A : Type) : Type := World -> World * (exn + A).

#[export] Instance M_ret : MRet M := fun A a w => (w, inr a).
#[export] Instance M_bind : MBind M := fun A B f m w =>
  match m w with
  | (w', inr a) => f a w'
  | (w', inl e) => (w', inl e)
  end.

Definition raise {A : Type} (e : exn) : M A := fun w => (w, inl e).
Definition get {A : Type} (f : Roadmap -> A) : M A := fun w => (w, inr (f (self w))).
Definition update (f : Roadmap -> Roadmap) : M unit :=
  fun w => (mk_World (f (self w)) (calls w) (stdout w), inr tt).
Definition record (c : Call) : M unit :=
  fun w => (mk_World (self w) (calls w ++ [c]) (stdout w), inr tt).
Definition print (line : string) : M unit :=
  fun w => (mk_World (self w) (calls w) (stdout w ++ [line]), inr tt).

(** [x.attr] where [x] may be [None]. *)
Definition deref {A : Type} (x : option A) : M A :=
  match x with
  | Some a => mret a
  | None => raise AttributeError
  end.

(** The result of a collaborator call. *)
Definition returned {A : Type} (r : exn + A) : M A :=
  match r with
  | inr a => mret a
  | inl e => raise e
  end.

Fixpoint for_each {A : Type} (body : A -> M unit) (l : list A) : M unit :=
  match l with
  | [] => mret tt
  | x :: l' => body x ;; for_each body l'
  end.

(** [Roadmap(width, height, show_current_date_marker)]: the generated
    [__init__] stores the three init fields, leaves the others at [None],
    and [__post_init__] builds the painter. *)
Definition new_Roadmap (width height : Z) (show_current_date_marker : bool) : World :=
  let p := Painter_init width height "test.png" in
  let p := Painter_set_background_colour "White" p in
  mk_World
    (mk_Roadmap width height show_current_date_marker None None None None p [] 0 MONTHLY)
    [Call_Painter width height "test.png"; Call_set_background_colour "White"]
    [].

(** [Roadmap()] with the defaults of the dataclass fields. *)
Definition default_Roadmap : World := new_Roadmap 1200 600 false.

Fixpoint enumerate {A : Type} (start : nat) (l : list A) : list (nat * A) :=
  match l with
  | [] => []
  | x :: l' => (start, x) :: enumerate (S start) l'
  end.

Section Methods.
Context `{!Collaborators} `{!Interpreter}.

Definition set_marker (label_text_font label_text_colour : string) (label_text_size : Z)
    (line_colour : string) (line_width : Z) (line_style : string) : M unit :=
  update (set_marker_attr (Some
    (new_Marker label_text_font label_text_size label_text_colour
                line_colour line_width line_style)));;
  update (set_show_current_date_marker true).

Definition set_title (text font : string) (font_size : Z) (font_colour : string)
    : M unit :=
  update (set_title_attr (Some (new_Title text font font_size font_colour)));;
  t ← get title ≫= deref;
  update (set_title_attr (Some (Title_set_text text t)));;
  t ← get title ≫= deref;
  p ← get painter;
  record (Call_Title_set_draw_position t);;
  '(t', p') ← returned (Title_set_draw_position t p);
  update (set_title_attr (Some t'));;
  update (set_painter p').

Definition set_footer (text font : string) (font_size : Z) (font_colour : string)
    : M unit :=
  flag ← get show_current_date_marker;
  (if (flag : bool) return M unit then
     m ← get marker ≫= deref;
     p ← get painter;
     record (Call_Marker_set_line_draw_position m);;
     '(m', p') ← returned (Marker_set_line_draw_position m p);
     update (set_marker_attr (Some m'));;
     update (set_painter p')
   else mret tt);;
  update (set_footer_attr (Some (new_Footer text font font_size font_colour)));;
  f ← get footer ≫= deref;
  update (set_footer_attr (Some (Footer_set_text text f)));;
  f ← get footer ≫= deref;
  p ← get painter;
  y ← get last_y_pos;
  record (Call_Footer_set_draw_position f y);;
  '(f', p') ← returned (Footer_set_draw_position f p y);
  update (set_footer_attr (Some f'));;
  update (set_painter p').

(** The default of [start]: today's date, formatted and parsed back, hence
    a [datetime] at midnight. *)
Definition default_start : pyobj :=
  PyDate (midnight (year today_at_definition) (month today_at_definition)
                   (day today_at_definition)).

(** [datetime.strptime(start, "%Y-%m-%d")]: the first argument must be a
    [str]. *)
Definition strptime (start : pyobj) : M datetime :=
  match start with
  | PyStr s => returned (strptime_ymd s)
  | _ => raise TypeError
  end.

(** [start = None] stands for a call that does not pass [start]. *)
Definition set_timeline (mode : TimelineMode) (start : option pyobj)
    (number_of_items : Z) (font : string) (font_size : Z)
    (font_colour fill_colour : string) : M unit :=
  let start := default default_start start in
  start_date ← strptime start;
  update (set_timeline_attr (Some
    (new_Timeline mode start_date number_of_items font font_size font_colour
                  fill_colour)));;
  tl ← get timeline ≫= deref;
  p ← get painter;
  record (Call_Timeline_set_draw_position tl);;
  '(tl', p') ← returned (Timeline_set_draw_position tl p);
  update (set_timeline_attr (Some tl'));;
  update (set_painter p');;
  flag ← get show_current_date_marker;
  if (flag : bool) return M unit then
    m ← get marker ≫= deref;
    p ← get painter;
    tl ← get timeline ≫= deref;
    record (Call_Marker_set_label_draw_position m tl);;
    '(m', p') ← returned (Marker_set_label_draw_position m p tl);
    update (set_marker_attr (Some m'));;
    update (set_painter p')
  else mret tt.

(** [add_group] up to its [yield]: the group is built and appended, and
    its position in [self.groups] is what the caller's block receives. *)
Definition add_group_enter (text font : string) (font_size : Z)
    (font_colour fill_colour text_alignment : string) : M nat :=
  let group := new_Group text font font_size font_colour fill_colour text_alignment in
  gs ← get groups;
  update (set_groups (gs ++ [group]));;
  mret (length gs).

(** The [finally] block of [add_group], run when the caller's block is
    left.  [i] names the group that [add_group_enter] appended: the
    generator holds that object in its local [group], and the list, which
    only ever grows, holds it at position [i]. *)
Definition add_group_exit (i : nat) : M unit :=
  gs ← get groups;
  match (gs : list Group) !! i with
  | Some group =>
      p ← get painter;
      tl ← get timeline;
      record (Call_Group_set_draw_position i group tl);;
      '(group', p') ← returned (Group_set_draw_position group p tl);
      gs ← get groups;
      update (set_groups (<[i := group']> gs));;
      update (set_painter p')
  | None => mret tt
  end.

Definition draw_group (ig : nat * Group) : M unit :=
  p ← get painter;
  record (Call_Group_draw ig.1 ig.2);;
  p' ← returned (Group_draw ig.2 p);
  update (set_painter p').

Definition draw : M unit :=
  t ← get title ≫= deref;
  p ← get painter;
  record (Call_Title_draw t);;
  p' ← returned (Title_draw t p);
  update (set_painter p');;
  tl ← get timeline ≫= deref;
  p ← get painter;
  record (Call_Timeline_draw tl);;
  p' ← returned (Timeline_draw tl p);
  update (set_painter p');;
  gs ← get groups;
  for_each draw_group (enumerate 0 gs);;
  m ← get marker ≫= deref;
  p ← get painter;
  record (Call_Marker_draw m);;
  p' ← returned (Marker_draw m p);
  update (set_painter p');;
  f ← get footer ≫= deref;
  p ← get painter;
  record (Call_Footer_draw f);;
  p' ← returned (Footer_draw f p);
  update (set_painter p').

Definition save : M unit :=
  p ← get painter;
  record Call_save_surface;;
  update (set_painter (Painter_save_surface p)).

End Methods.

(** ** The diagnostic dump *)

Fixpoint repeat_string (s : string) (n : nat) : string :=
  match n with
  | O => ""
  | S n' => s +:+ repeat_string s n'
  end.

(** [str(z)] zero-padded to [w] digits, as in [%04d]. *)
Definition zero_padded (w : nat) (z : Z) : string :=
  let s := pretty z in repeat_string "0" (w - String.length s) +:+ s.

(** [str] of a [datetime] without microseconds. *)
Definition str_datetime (d : datetime) : string :=
  zero_padded 4 (year d) +:+ "-" +:+ zero_padded 2 (month d) +:+ "-"
  +:+ zero_padded 2 (day d) +:+ " " +:+ zero_padded 2 (hour d) +:+ ":"
  +:+ zero_padded 2 (minute d) +:+ ":" +:+ zero_padded 2 (second d).

Section Dump.
Context `{!Collaborators}.

Definition str_num (n : num) : string :=
  match n with
  | Int z => pretty z
  | Float q => str_float q
  end.

(** [round(n, 2)]: an [int] is returned as it is. *)
Definition round2 (n : num) : num :=
  match n with
  | Int z => Int z
  | Float q => Float (round2_float q)
  end.

Definition dash : string := "─".
Definition space : string := " ".

Definition title_line (t : Title) : string := "Title=" +:+ Title_text t.

Definition timeline_item_line (it : TimelineItem) : string :=
  "└" +:+ repeat_string dash 8 +:+ TimelineItem_text it
  +:+ ", value=" +:+ str_num (TimelineItem_value it)
  +:+ ", box_x=" +:+ str_num (round2 (TimelineItem_box_x it))
  +:+ ", box_y=" +:+ str_num (TimelineItem_box_y it)
  +:+ ", box_w=" +:+ str_num (round2 (TimelineItem_box_width it))
  +:+ ", box_h=" +:+ str_num (TimelineItem_box_height it)
  +:+ ", text_x=" +:+ str_num (round2 (TimelineItem_text_x it))
  +:+ ", text_y=" +:+ str_num (TimelineItem_text_y it).

(** [print(a, b)] joins its two arguments with a space. *)
Definition group_line (g : Group) : string :=
  ("Group: text=" +:+ Group_text g
   +:+ ", x=" +:+ str_num (round2 (Group_box_x g))
   +:+ ", y=" +:+ str_num (Group_box_y g) +:+ ",")
  +:+ " "
  +:+ ("w=" +:+ str_num (Group_box_width g) +:+ ", h=" +:+ str_num (Group_box_height g)).

Definition task_line (t : Task) : string :=
  "└" +:+ repeat_string dash 8 +:+ Task_text t
  +:+ ", start=" +:+ str_datetime (Task_start t)
  +:+ ", end=" +:+ str_datetime (Task_end t)
  +:+ ", x=" +:+ str_num (round2 (Task_box_x t))
  +:+ ", y=" +:+ str_num (Task_box_y t)
  +:+ ", w=" +:+ str_num (round2 (Task_box_width t))
  +:+ ", h=" +:+ str_num (Task_box_height t).

Definition milestone_line (m : Milestone) : string :=
  repeat_string space 9 +:+ "├" +:+ repeat_string dash 4 +:+ Milestone_text m
  +:+ ", date=" +:+ str_datetime (Milestone_date m)
  +:+ ", x=" +:+ str_num (round2 (Milestone_diamond_x m))
  +:+ ", y=" +:+ str_num (Milestone_diamond_y m)
  +:+ ", w=" +:+ str_num (Milestone_diamond_width m)
  +:+ ", h=" +:+ str_num (Milestone_diamond_height m)
  +:+ ", font_colour=" +:+ Milestone_font_colour m
  +:+ ", fill_colour=" +:+ Milestone_fill_colour m.

Definition parallel_task_line (t : Task) : string :=
  repeat_string space 9 +:+ "└" +:+ repeat_string dash 4
  +:+ "Parellel Task: " +:+ Task_text t
  +:+ ", start=" +:+ str_datetime (Task_start t)
  +:+ ", end=" +:+ str_datetime (Task_end t)
  +:+ ", x=" +:+ str_num (round2 (Task_box_x t))
  +:+ ", y=" +:+ str_num (round2 (Task_box_y t))
  +:+ ", w=" +:+ str_num (round2 (Task_box_width t))
  +:+ ", h=" +:+ str_num (round2 (Task_box_height t)).

Definition parallel_task_milestone_line (m : Milestone) : string :=
  repeat_string space 14 +:+ "├" +:+ repeat_string dash 4 +:+ Milestone_text m
  +:+ ", date=" +:+ str_datetime (Milestone_date m)
  +:+ ", x=" +:+ str_num (round2 (Milestone_diamond_x m))
  +:+ ", y=" +:+ str_num (round2 (Milestone_diamond_y m))
  +:+ ", w=" +:+ str_num (Milestone_diamond_width m)
  +:+ ", h=" +:+ str_num (Milestone_diamond_height m).

Definition footer_line (f : Footer) : string :=
  "Footer: " +:+ Footer_text f +:+ " x=" +:+ str_num (Footer_x f)
  +:+ " y=" +:+ str_num (Footer_y f) +:+ " w=" +:+ str_num (Footer_width f)
  +:+ " h=" +:+ str_num (Footer_height f).

Definition print_parallel_task (t : Task) : M unit :=
  print (parallel_task_line t);;
  for_each (fun m => print (parallel_task_milestone_line m)) (Task_milestones t).

Definition print_task (t : Task) : M unit :=
  print (task_line t);;
  for_each (fun m => print (milestone_line m)) (Task_milestones t);;
  for_each print_parallel_task (Task_tasks t).

Definition print_group (g : Group) : M unit :=
  print (group_line g);;
  for_each print_task (Group_tasks g).

Definition print_roadmap (print_area : string) : M unit :=
  (if String.eqb print_area "all" || String.eqb print_area "title" return M unit then
     t ← get title ≫= deref;
     print (title_line t)
   else mret tt);;
  (if String.eqb print_area "all" || String.eqb print_area "timeline" return M unit then
     print "Timeline:";;
     tl ← get timeline ≫= deref;
     for_each (fun it => print (timeline_item_line it)) (Timeline_timeline_items tl)
   else mret tt);;
  (if String.eqb print_area "all" || String.eqb print_area "groups" return M unit then
     gs ← get groups;
     for_each print_group gs
   else mret tt);;
  (if String.eqb print_area "all" || String.eqb print_area "footer" return M unit then
     f ← get footer ≫= deref;
     print (footer_line f)
   else mret tt).

(** The lines of the dump, section by section. *)
Definition timeline_lines (tl : Timeline) : list string :=
  "Timeline:" :: (timeline_item_line <$> Timeline_timeline_items tl).

Definition parallel_task_lines (t : Task) : list string :=
  parallel_task_line t :: (parallel_task_milestone_line <$> Task_milestones t).

Definition task_lines (t : Task) : list string :=
  task_line t :: (milestone_line <$> Task_milestones t)
  ++ concat (parallel_task_lines <$> Task_tasks t).

Definition group_lines (g : Group) : list string :=
  group_line g :: concat (task_lines <$> Group_tasks g).

End Dump.

(** ** Programs that drive a Roadmap *)

(** A call of a public method other than [add_group]. *)
Inductive api : Type :=
  | call_set_marker (label_text_font label_text_colour : string) (label_text_size : Z)
                    (line_colour : string) (line_width : Z) (line_style : string)
  | call_set_title (text font : string) (font_size : Z) (font_colour : string)
  | call_set_footer (text font : string) (font_size : Z) (font_colour : string)
  | call_set_timeline (mode : TimelineMode) (start : option pyobj) (number_of_items : Z)
                      (font : string) (font_size : Z) (font_colour fill_colour : string)
  | call_draw
  | call_save
  | call_print_roadmap (print_area : string).

(** The caller's code: method calls in sequence, [with roadmap.add_group(..)
    as group:] blocks whose body may use the group, changes the caller
    makes to a group it holds, and [raise]. *)
Inductive program : Type :=
  | Return
  | Raise (e : exn)
  | Do (c : api) (k : program)
  | Populate (group : nat) (f : Group -> Group) (k : program)
  | With_add_group (text font : string) (font_size : Z)
                   (font_colour fill_colour text_alignment : string)
                   (body : nat -> program) (k : program).

(** The body of a block that only populates its group. *)
Definition block (edits : list (Group -> Group)) (group : nat) : program :=
  foldr (Populate group) Return edits.

(** One [with add_group(text)] block after the other, then [k]. *)
Fixpoint with_groups (blocks : list (string * list (Group -> Group))) (k : program)
    : program :=
  match blocks with
  | [] => k
  | (text, edits) :: rest =>
      With_add_group text "Arial" 10 "Black" "lightgrey" "centre" (block edits)
                     (with_groups rest k)
  end.

(** The phases in the order the layout needs: marker configuration, title,
    timeline, the groups, footer.  Arguments not given take the defaults of
    the method signatures. *)
Definition phased (title_text start : string) (number_of_items : Z)
    (blocks : list (string * list (Group -> Group))) (footer_text : string) : program :=
  Do (call_set_marker "Arial" "Black" 10 "Black" 2 "dashed")
  (Do (call_set_title title_text "Arial" 18 "Black")
  (Do (call_set_timeline MONTHLY (Some (PyStr start)) number_of_items "Arial" 10 "Black"
                         "lightgrey")
  (with_groups blocks
  (Do (call_set_footer footer_text "Arial" 18 "Black") Return)))).

(** The caller mutates a group object it holds. *)
Definition populate (i : nat) (f : Group -> Group) (w : World) : World :=
  mk_World (set_groups (alter f i (groups (self w))) (self w)) (calls w) (stdout w).

Section Programs.
Context `{!Collaborators} `{!Interpreter}.

Definition invoke (c : api) : M unit :=
  match c with
  | call_set_marker f c s lc lw ls => set_marker f c s lc lw ls
  | call_set_title t f s c => set_title t f s c
  | call_set_footer t f s c => set_footer t f s c
  | call_set_timeline m st n f s c fc => set_timeline m st n f s c fc
  | call_draw => draw
  | call_save => save
  | call_print_roadmap a => print_roadmap a
  end.

(** [with self.add_group(..) as group: body], through the protocol of
    [contextlib.contextmanager]: the generator runs up to [yield], the
    body runs, and the generator is resumed (or the body's exception is
    thrown into it), which runs the [finally] block.  An exception of the
    [finally] block replaces the body's; otherwise the body's is raised
    again. *)
Definition with_add_group (text font : string) (font_size : Z)
    (font_colour fill_colour text_alignment : string)
    (body : nat -> World -> World * option exn) (w : World) : World * option exn :=
  match add_group_enter text font font_size font_colour fill_colour text_alignment w with
  | (w1, inl e) => (w1, Some e)
  | (w1, inr group) =>
      let '(w2, raised) := body group w1 in
      match add_group_exit group w2 with
      | (w3, inl e') => (w3, Some e')
      | (w3, inr _) => (w3, raised)
      end
  end.

Fixpoint run (p : program) (w : World) : World * option exn :=
  match p with
  | Return => (w, None)
  | Raise e => (w, Some e)
  | Do c k =>
      match invoke c w with
      | (w', inr _) => run k w'
      | (w', inl e) => (w', Some e)
      end
  | Populate i f k => run k (populate i f w)
  | With_add_group t f s c fc a body k =>
      match with_add_group t f s c fc a (fun group => run (body group)) w with
      | (w', None) => run k w'
      | (w', Some e) => (w', Some e)
      end
  end.

End Programs.

(** ** Vocabulary for the statements *)

(** The world after the painter was replaced, and after calls were logged. *)
Definition with_painter (p : Painter) (w : World) : World :=
  mk_World (set_painter p (self w)) (calls w) (stdout w).

Definition logged (cs : list Call) (w : World) : World :=
  mk_World (self w) (calls w ++ cs) (stdout w).

Definition printed (lines : list string) (w : World) : World :=
  mk_World (self w) (calls w) (stdout w ++ lines).

(** A computation that does nothing but print. *)
Definition only_prints {A : Type} (m : M A) : Prop :=
  forall w, exists lines r, m w = (printed lines w, r).

(** The Python name of the collaborator method behind a logged call. *)
Definition call_name (c : Call) : string :=
  match c with
  | Call_Painter _ _ _ => "Painter"
  | Call_set_background_colour _ => "Painter.set_background_colour"
  | Call_save_surface => "Painter.save_surface"
  | Call_Title_set_draw_position _ => "Title.set_draw_position"
  | Call_Timeline_set_draw_position _ => "Timeline.set_draw_position"
  | Call_Marker_set_label_draw_position _ _ => "Marker.set_label_draw_position"
  | Call_Group_set_draw_position _ _ _ => "Group.set_draw_position"
  | Call_Marker_set_line_draw_position _ => "Marker.set_line_draw_position"
  | Call_Footer_set_draw_position _ _ => "Footer.set_draw_position"
  | Call_Title_draw _ => "Title.draw"
  | Call_Timeline_draw _ => "Timeline.draw"
  | Call_Group_draw _ _ => "Group.draw"
  | Call_Marker_draw _ => "Marker.draw"
  | Call_Footer_draw _ => "Footer.draw"
  end.

(** Calls that set the canvas up: building the painter and choosing the
    background colour. *)
Definition is_canvas_setup (c : Call) : bool :=
  match c with
  | Call_Painter _ _ _ | Call_set_background_colour _ => true
  | _ => false
  end.

(** Is [c] the layout of the group at position [i]? *)
Definition is_layout_of (i : nat) (c : Call) : bool :=
  match c with
  | Call_Group_set_draw_position j _ _ => Nat.eqb i j
  | _ => false
  end.

Definition group_draw_calls (start : nat) (gs : list Group) : list Call :=
  (fun ig : nat * Group => Call_Group_draw ig.1 ig.2) <$> enumerate start gs.

(** The draw calls of a complete roadmap, in the order of [draw]. *)
Definition draw_order (t : Title) (tl : Timeline) (gs : list Group) (m : Marker)
    (f : Footer) : list Call :=
  [Call_Title_draw t; Call_Timeline_draw tl] ++ group_draw_calls 0 gs
  ++ [Call_Marker_draw m; Call_Footer_draw f].

(** The draw calls that [draw] can reach on any roadmap: a component that
    is [None] contributes nothing. *)
Definition reachable_draw_order (r : Roadmap) : list Call :=
  option_list (Call_Title_draw <$> title r)
  ++ option_list (Call_Timeline_draw <$> timeline r)
  ++ group_draw_calls 0 (groups r)
  ++ option_list (Call_Marker_draw <$> marker r)
  ++ option_list (Call_Footer_draw <$> footer r).

(** The marker calls of a layout phase: none unless the marker is enabled. *)
Definition marker_phase (r : Roadmap) (call : Marker -> Call) : list Call :=
  if show_current_date_marker r then option_list (call <$> marker r) else [].

(** The flag and the marker object agree. *)
Definition marker_in_sync (r : Roadmap) : Prop :=
  show_current_date_marker r = true <-> is_Some (marker r).

Section Contracts.
Context `{!Collaborators}.

(** The draw methods of the collaborators return. *)
Definition draw_methods_return : Prop :=
  (forall t p, exists p', Title_draw t p = inr p')
  /\ (forall tl p, exists p', Timeline_draw tl p = inr p')
  /\ (forall g p, exists p', Group_draw g p = inr p')
  /\ (forall m p, exists p', Marker_draw m p = inr p')
  /\ (forall f p, exists p', Footer_draw f p = inr p').

(** The layout methods of the collaborators return, a group's when there
    is a timeline to lay it out against. *)
Definition layout_methods_return : Prop :=
  (forall t p, exists r, Title_set_draw_position t p = inr r)
  /\ (forall tl p, exists r, Timeline_set_draw_position tl p = inr r)
  /\ (forall m p tl, exists r, Marker_set_label_draw_position m p tl = inr r)
  /\ (forall m p, exists r, Marker_set_line_draw_position m p = inr r)
  /\ (forall g p tl, exists r, Group_set_draw_position g p (Some tl) = inr r)
  /\ (forall f p y, exists r, Footer_set_draw_position f p y = inr r).

(** No collaborator method changes the canvas of the painter it is given. *)
Definition collaborators_keep_canvas : Prop :=
  (forall t p t' p', Title_set_draw_position t p = inr (t', p') -> canvas p' = canvas p)
  /\ (forall tl p tl' p',
        Timeline_set_draw_position tl p = inr (tl', p') -> canvas p' = canvas p)
  /\ (forall m p tl m' p',
        Marker_set_label_draw_position m p tl = inr (m', p') -> canvas p' = canvas p)
  /\ (forall m p m' p',
        Marker_set_line_draw_position m p = inr (m', p') -> canvas p' = canvas p)
  /\ (forall g p tl g' p',
        Group_set_draw_position g p tl = inr (g', p') -> canvas p' = canvas p)
  /\ (forall f p y f' p',
        Footer_set_draw_position f p y = inr (f', p') -> canvas p' = canvas p)
  /\ (forall t p p', Title_draw t p = inr p' -> canvas p' = canvas p)
  /\ (forall tl p p', Timeline_draw tl p = inr p' -> canvas p' = canvas p)
  /\ (forall g p p', Group_draw g p = inr p' -> canvas p' = canvas p)
  /\ (forall m p p', Marker_draw m p = inr p' -> canvas p' = canvas p)
  /\ (forall f p p', Footer_draw f p = inr p' -> canvas p' = canvas p).

End Contracts.

(** The flag is the same and the marker object exists in both or in neither. *)
Definition same_marker_state (r r' : Roadmap) : Prop :=
  show_current_date_marker r' = show_current_date_marker r
  /\ (is_Some (marker r') <-> is_Some (marker r)).

(** Programs that never call [set_marker]. *)
Fixpoint no_set_marker (p : program) : Prop :=
  match p with
  | Return | Raise _ => True
  | Do c k =>
      match c with
      | call_set_marker _ _ _ _ _ _ => False
      | _ => True
      end /\ no_set_marker k
  | Populate _ _ k => no_set_marker k
  | With_add_group _ _ _ _ _ _ body k => (forall i, no_set_marker (body i)) /\ no_set_marker k
  end.

Section Evolution.
Context `{!Collaborators}.

(** What every public operation, and hence every program, leaves in
    place between a world [w] and a later world [w']. *)
Record evolves (w w' : World) : Prop := mk_evolves {
  ev_width : width (self w') = width (self w);
  ev_height : height (self w') = height (self w);
  ev_last_y_pos : last_y_pos (self w') = last_y_pos (self w);
  ev_canvas :
    collaborators_keep_canvas -> canvas (painter (self w')) = canvas (painter (self w));
  ev_canvas_setup :
    List.filter is_canvas_setup (calls w') = List.filter is_canvas_setup (calls w);
  ev_groups : (length (groups (self w)) <= length (groups (self w')))%nat;
  ev_layouts : forall i, (i < length (groups (self w)))%nat ->
    List.filter (is_layout_of i) (calls w') = List.filter (is_layout_of i) (calls w);
  ev_sync : marker_in_sync (self w) -> marker_in_sync (self w');
  ev_flag :
    show_current_date_marker (self w) = true ->
    show_current_date_marker (self w') = true
}.

End Evolution.

(** ** Vocabulary for further properties *)

(** The number of layout calls logged for the group at position [i]. *)
Definition layout_count (i : nat) (cs : list Call) : nat :=
  length (List.filter (is_layout_of i) cs).

(** Every group of [self.groups] has been laid out exactly once, except
    the groups whose block is still open, which have not been laid out; and
    no layout call names a group that is not in the list. *)
Definition laid_out_once (open : list nat) (w : World) : Prop :=
  forall i,
    layout_count i (calls w)
    = if bool_decide (i < length (groups (self w)))%nat && negb (bool_decide (i ∈ open))
      then 1%nat else 0%nat.

(** A footer layout call, if [c] is one, was given [y] as the last y
    position. *)
Definition footer_call_at (y : Z) (c : Call) : Prop :=
  match c with
  | Call_Footer_set_draw_position _ y' => y' = y
  | _ => True
  end.

(** The two private attributes still have the values of [__post_init__],
    and every footer was laid out against that [__last_y_pos]. *)
Definition private_attributes_initial (w : World) : Prop :=
  last_y_pos (self w) = 0 /\ mode (self w) = MONTHLY
  /\ Forall (footer_call_at 0) (calls w).

(** A task without its nested tasks. *)
Definition without_subtasks (t : Task) : Task :=
  mk_Task (Task_text t) (Task_start t) (Task_end t) (Task_box_x t) (Task_box_y t)
          (Task_box_width t) (Task_box_height t) (Task_milestones t) [].

(** A group whose tasks keep their parallel tasks, but where those have no
    tasks of their own. *)
Definition two_levels (g : Group) : Group :=
  mk_Group (Group_text g) (Group_font g) (Group_font_size g) (Group_font_colour g)
           (Group_fill_colour g) (Group_text_alignment g) (Group_box_x g) (Group_box_y g)
           (Group_box_width g) (Group_box_height g)
           ((fun t => mk_Task (Task_text t) (Task_start t) (Task_end t) (Task_box_x t)
                              (Task_box_y t) (Task_box_width t) (Task_box_height t)
                              (Task_milestones t) (without_subtasks <$> Task_tasks t))
              <$> Group_tasks g).

(** Two nested [add_group] blocks; the inner body returns or raises. *)
Definition nested_blocks (outer inner : string) (raised : option exn) : program :=
  With_add_group outer "Arial" 10 "Black" "lightgrey" "centre"
    (fun _ =>
       With_add_group inner "Arial" 10 "Black" "lightgrey" "centre"
         (fun _ => match raised with Some e => Raise e | None => Return end)
         Return)
    Return.

(** The marker configured only after the timeline was set. *)
Definition marker_after_timeline (start footer_text : string) : program :=
  Do (call_set_timeline MONTHLY (Some (PyStr start)) 12 "Arial" 10 "Black" "lightgrey")
  (Do (call_set_marker "Arial" "Black" 10 "Black" 2 "dashed")
  (Do (call_set_footer footer_text "Arial" 18 "Black") Return)).

(** ** A test double for the collaborators

    A small executable stand-in for the classes that roadmap.py imports,
    used to run the orchestrator on concrete inputs.  It lays boxes out on
    integer coordinates; a group cannot be laid out without a timeline. *)
Module TestDouble.

Definition paint (ps : list Primitive) (p : Painter) : Painter :=
  mk_Painter (Painter_width p) (Painter_height p) (Painter_output_file_name p)
             (Painter_background_colour p) (Painter_surface p ++ ps) (Painter_saved p).

Definition usable_width (p : Painter) : Z := Painter_width p - 60.

Definition item (p : Painter) (n k : Z) : TimelineItem :=
  let w := usable_width p / Z.max n 1 in
  mk_TimelineItem ("P" +:+ pretty k) (Int k) (Int (30 + k * w)) (Int 40) (Int w) (Int 20)
                  (Int (30 + k * w + w / 2)) (Int 50).

Definition item_box (it : TimelineItem) : Primitive :=
  draw_rectangle (TimelineItem_box_x it) (TimelineItem_box_y it)
                 (TimelineItem_box_width it) (TimelineItem_box_height it) "lightgrey".

#[export] Instance collaborators : Collaborators := {|
  str_float q := pretty (Qnum q) +:+ "/" +:+ pretty (Zpos (Qden q));
  round2_float q := Qmake (Qnum q * 100 / Zpos (Qden q)) 100;
  new_Title text font font_size font_colour :=
    mk_Title text font font_size font_colour (Int 0) (Int 0) (Int 0) (Int 0);
  Title_set_draw_position t p :=
    inr (mk_Title (Title_text t) (Title_font t) (Title_font_size t) (Title_font_colour t)
                  (Int (Painter_width p / 2)) (Int 10)
                  (Int (Z.of_nat (String.length (Title_text t)) * Title_font_size t))
                  (Int (Title_font_size t)), p);
  Title_draw t p :=
    inr (paint [draw_text (Title_x t) (Title_y t) (Title_text t) (Title_font t)
                          (Title_font_size t) (Title_font_colour t)] p);
  new_Footer text font font_size font_colour :=
    mk_Footer text font font_size font_colour (Int 0) (Int 0) (Int 0) (Int 0);
  Footer_set_draw_position f p last_y_pos :=
    inr (mk_Footer (Footer_text f) (Footer_font f) (Footer_font_size f)
                   (Footer_font_colour f)
                   (Int (Painter_width p / 2)) (Int (last_y_pos + 20))
                   (Int (Z.of_nat (String.length (Footer_text f)) * Footer_font_size f))
                   (Int (Footer_font_size f)), p);
  Footer_draw f p :=
    inr (paint [draw_text (Footer_x f) (Footer_y f) (Footer_text f) (Footer_font f)
                          (Footer_font_size f) (Footer_font_colour f)] p);
  new_Timeline mode start number_of_items font font_size font_colour fill_colour :=
    mk_Timeline mode start number_of_items font font_size font_colour fill_colour [];
  Timeline_set_draw_position tl p :=
    inr (mk_Timeline (Timeline_mode tl) (Timeline_start tl) (Timeline_number_of_items tl)
                     (Timeline_font tl) (Timeline_font_size tl) (Timeline_font_colour tl)
                     (Timeline_fill_colour tl)
                     (item p (Timeline_number_of_items tl)
                        <$> seqZ 0 (Timeline_number_of_items tl)), p);
  Timeline_draw tl p := inr (paint (item_box <$> Timeline_timeline_items tl) p);
  new_Marker font font_size font_colour line_colour line_width line_style :=
    mk_Marker font font_size font_colour line_colour line_width line_style
              (Int 0) (Int 0) (Int 0) (Int 0) (Int 0);
  Marker_set_label_draw_position m p tl :=
    inr (mk_Marker (Marker_font m) (Marker_font_size m) (Marker_font_colour m)
                   (Marker_line_colour m) (Marker_line_width m) (Marker_line_style m)
                   (Int 100) (Int 30) (Marker_line_x m) (Marker_line_top m)
                   (Marker_line_bottom m), p);
  Marker_set_line_draw_position m p :=
    inr (mk_Marker (Marker_font m) (Marker_font_size m) (Marker_font_colour m)
                   (Marker_line_colour m) (Marker_line_width m) (Marker_line_style m)
                   (Marker_label_x m) (Marker_label_y m)
                   (Int 100) (Int 60) (Int (Painter_height p - 40)), p);
  Marker_draw m p :=
    inr (paint [draw_line (Marker_line_x m) (Marker_line_top m) (Marker_line_x m)
                          (Marker_line_bottom m) (Marker_line_colour m)
                          (Marker_line_width m) (Marker_line_style m)] p);
  new_Group text font font_size font_colour fill_colour text_alignment :=
    mk_Group text font font_size font_colour fill_colour text_alignment
             (Int 0) (Int 0) (Int 0) (Int 0) [];
  Group_set_draw_position g p tl :=
    match tl with
    | None => inl (CollaboratorError "Group.set_draw_position")
    | Some _ =>
        inr (mk_Group (Group_text g) (Group_font g) (Group_font_size g)
                      (Group_font_colour g) (Group_fill_colour g)
                      (Group_text_alignment g)
                      (Int 30) (Int 60) (Int (usable_width p))
                      (Int (20 * (1 + Z.of_nat (length (Group_tasks g)))))
                      (Group_tasks g), p)
    end;
  Group_draw g p :=
    inr (paint [draw_rectangle (Group_box_x g) (Group_box_y g) (Group_box_width g)
                               (Group_box_height g) (Group_fill_colour g)] p)
|}.

(** The decimal digits of Unicode 14.0, the database of CPython 3.11,
    outside ASCII.  Every script has its ten digits in a row, from zero to
    nine; the list gives the code point of each zero (Arabic-Indic 1632,
    ..., fullwidth 65296, ...). *)
Definition zeros : list Z :=
  [1632; 1776; 1984; 2406; 2534; 2662; 2790; 2918; 3046; 3174; 3302; 3430;
   3558; 3664; 3792; 3872; 4160; 4240; 6112; 6160; 6470; 6608; 6784; 6800;
   6992; 7088; 7232; 7248; 42528; 43216; 43264; 43472; 43504; 43600; 44016;
   65296; 66720; 68912; 69734; 69872; 69942; 70096; 70384; 70736; 70864;
   71248; 71360; 71472; 71904; 72016; 72784; 73040; 73120; 92768; 92864;
   93008; 120782; 120792; 120802; 120812; 120822; 123200; 123632; 125264;
   130032].

Definition unicode_14_decimal (cp : Z) : option Z :=
  match List.find (fun z => (z <=? cp) && (cp <=? z + 9)) zeros with
  | Some z => Some (cp - z)
  | None => None
  end.

#[export] Instance interpreter : Interpreter := {|
  today_at_definition := mk_datetime 2022 11 4 9 30 0;
  unicode_decimal := unicode_14_decimal
|}.

(** A task as the caller's block would add it to a group. *)
Definition add_task (text : string) (t : Group) : Group :=
  mk_Group (Group_text t) (Group_font t) (Group_font_size t) (Group_font_colour t)
           (Group_fill_colour t) (Group_text_alignment t) (Group_box_x t) (Group_box_y t)
           (Group_box_width t) (Group_box_height t)
           (Group_tasks t ++ [mk_Task text (midnight 2024 1 15) (midnight 2024 2 15)
                                      (Int 0) (Int 0) (Int 0) (Int 0) [] []]).

(** A roadmap driven through every phase, with the marker configured. *)
Definition planned : program :=
  phased "My Roadmap" "2024-01-01" 3
         [("Core", [add_task "Design"; add_task "Build"]); ("Docs", [add_task "Guide"])]
         "The end".

Definition complete_roadmap : World := Eval vm_compute in (run planned default_Roadmap).1.

(** The same phases without [set_marker]. *)
Definition unmarked : program :=
  Do (call_set_title "My Roadmap" "Arial" 18 "Black")
  (Do (call_set_timeline MONTHLY (Some (PyStr "2024-01-01")) 3 "Arial" 10 "Black" "lightgrey")
  (With_add_group "Core" "Arial" 10 "Black" "lightgrey" "centre"
     (fun g => Populate g (add_task "Design") Return)
  (Do (call_set_footer "The end" "Arial" 18 "Black") Return))).

Definition unmarked_roadmap : World := Eval vm_compute in (run unmarked default_Roadmap).1.

(** Title, timeline and footer set, and no group. *)
Definition empty_roadmap : World :=
  Eval vm_compute in
  (run (Do (call_set_title "My Roadmap" "Arial" 18 "Black")
       (Do (call_set_timeline MONTHLY (Some (PyStr "2024-01-01")) 2 "Arial" 10 "Black"
                              "lightgrey")
       (Do (call_set_footer "The end" "Arial" 18 "Black") Return)))
       default_Roadmap).1.

(** The marker configured and the title set; timeline and footer to come. *)
Definition marked_roadmap : World :=
  Eval vm_compute in
  (run (Do (call_set_marker "Arial" "Black" 10 "Black" 2 "dashed")
       (Do (call_set_title "My Roadmap" "Arial" 18 "Black") Return))
       default_Roadmap).1.

(** A block that fails after adding one task to its group. *)
Definition interrupted : program :=
  Do (call_set_timeline MONTHLY (Some (PyStr "2024-01-01")) 3 "Arial" 10 "Black" "lightgrey")
  (With_add_group "Core" "Arial" 10 "Black" "lightgrey" "centre"
     (fun g => Populate g (add_task "Design") (Raise (CallerError "boom")))
  (Do (call_set_footer "never reached" "Arial" 18 "Black") Return)).

(** A group with three levels of tasks. *)
Definition deep_group : Group :=
  mk_Group "Core" "Arial" 10 "Black" "lightgrey" "centre" (Int 30) (Int 60) (Int 1140)
           (Int 40)
           [mk_Task "Build" (midnight 2024 1 15) (midnight 2024 2 15)
                    (Int 40) (Int 80) (Int 300) (Int 20) []
              [mk_Task "Test" (midnight 2024 1 20) (midnight 2024 2 1)
                       (Int 60) (Int 100) (Int 100) (Int 20) []
                 [mk_Task "Deep" (midnight 2024 1 21) (midnight 2024 1 22)
                          (Int 61) (Int 120) (Int 10) (Int 20) [] []]]].

Definition deep_roadmap : World :=
  mk_World (set_groups [deep_group] (self default_Roadmap)) (calls default_Roadmap) [].

End TestDouble.

(** * Properties *)

Ltac unfold_monad :=
  unfold mbind, M_bind, mret, M_ret, get, update, record, print, raise, deref,
    returned in *.

Ltac unfold_worlds := unfold with_painter, logged, printed in *.

(** Case analysis on every collaborator result and every optional
    attribute that a method body inspects. *)
Ltac crunch :=
  unfold_monad; cbn in *;
  repeat (first [case_match | progress simplify_eq/=]; unfold_monad; cbn in *).

(** What the canvas contract says about the collaborator calls at hand. *)
Ltac canvas_facts K :=
  destruct K as (K1 & K2 & K3 & K4 & K5 & K6 & K7 & K8 & K9 & K10 & K11);
  repeat match goal with
  | E : Title_set_draw_position _ _ = inr _ |- _ => apply K1 in E
  | E : Timeline_set_draw_position _ _ = inr _ |- _ => apply K2 in E
  | E : Marker_set_label_draw_position _ _ _ = inr _ |- _ => apply K3 in E
  | E : Marker_set_line_draw_position _ _ = inr _ |- _ => apply K4 in E
  | E : Group_set_draw_position _ _ _ = inr _ |- _ => apply K5 in E
  | E : Footer_set_draw_position _ _ _ = inr _ |- _ => apply K6 in E
  | E : Title_draw _ _ = inr _ |- _ => apply K7 in E
  | E : Timeline_draw _ _ = inr _ |- _ => apply K8 in E
  | E : Group_draw _ _ = inr _ |- _ => apply K9 in E
  | E : Marker_draw _ _ = inr _ |- _ => apply K10 in E
  | E : Footer_draw _ _ = inr _ |- _ => apply K11 in E
  end.

(** ** Loops *)

Lemma for_each_cons {A : Type} (body : A -> M unit) (x : A) (l : list A) (w : World) :
  for_each body (x :: l) w
  = match body x w with
    | (w', inr _) => for_each body l w'
    | (w', inl e) => (w', inl e)
    end.
Proof. reflexivity. Qed.

(** A loop of prints prints one line per element and cannot raise. *)
Lemma for_each_print {A : Type} (line : A -> string) (l : list A) (w : World) :
  for_each (fun x => print (line x)) l w = (printed (line <$> l) w, inr tt).
Proof.
  revert w. induction l as [|x l IH]; intros w.
  - destruct w; unfold printed; cbn. rewrite app_nil_r. reflexivity.
  - rewrite for_each_cons. unfold print at 1. rewrite IH.
    unfold printed; cbn. rewrite <- app_assoc. reflexivity.
Qed.

(** A loop whose rounds only print. *)
Lemma for_each_prints {A : Type} (body : A -> M unit) (l : list A) :
  (forall x w, exists lines r, body x w = (printed lines w, r)) ->
  forall w, exists lines r, for_each body l w = (printed lines w, r).
Proof.
  intros Hbody. induction l as [|x l IH]; intros w.
  - exists [], (inr tt). destruct w; unfold printed; cbn. rewrite app_nil_r. reflexivity.
  - rewrite for_each_cons. destruct (Hbody x w) as (l1 & r1 & ->).
    destruct r1 as [e|[]]; [eauto|].
    destruct (IH (printed l1 w)) as (l2 & r2 & ->).
    exists (l1 ++ l2), r2. unfold printed; cbn. rewrite <- app_assoc. reflexivity.
Qed.

Section DrawProperties.
Context `{!Collaborators}.

Lemma draw_group_eq (ig : nat * Group) (w : World) :
  draw_group ig w =
  match Group_draw ig.2 (painter (self w)) with
  | inr p' => (with_painter p' (logged [Call_Group_draw ig.1 ig.2] w), inr tt)
  | inl e => (logged [Call_Group_draw ig.1 ig.2] w, inl e)
  end.
Proof.
  unfold draw_group; unfold_monad; cbn.
  destruct (Group_draw _ _); reflexivity.
Qed.

(** When no group's draw raises, the loop of [draw] draws every group, in
    the order of the list. *)
Lemma draw_groups_return (gs : list Group) :
  (forall g p, exists p', Group_draw g p = inr p') ->
  forall n w, exists p',
    for_each draw_group (enumerate n gs) w
    = (with_painter p' (logged (group_draw_calls n gs) w), inr tt).
Proof.
  intros Hg. induction gs as [|g gs IH]; intros n w.
  - exists (painter (self w)). destruct w as [[] ? ?].
    unfold_worlds; unfold group_draw_calls; cbn. rewrite app_nil_r. reflexivity.
  - cbn [enumerate]. rewrite for_each_cons, draw_group_eq. cbn [fst snd].
    destruct (Hg g (painter (self w))) as [p1 ->].
    destruct (IH (S n) (with_painter p1 (logged [Call_Group_draw n g] w))) as [p2 ->].
    exists p2. unfold_worlds; unfold group_draw_calls; cbn.
    rewrite <- app_assoc. reflexivity.
Qed.

(** Whatever the group draws do, the loop draws an initial segment of the
    groups and changes nothing but the painter. *)
Lemma draw_groups_prefix (gs : list Group) :
  forall n w, exists p' done rest,
    group_draw_calls n gs = done ++ rest
    /\ (for_each draw_group (enumerate n gs) w).1 = with_painter p' (logged done w)
    /\ ((for_each draw_group (enumerate n gs) w).2 = inr tt -> rest = [])
    /\ (collaborators_keep_canvas -> canvas p' = canvas (painter (self w))).
Proof.
  induction gs as [|g gs IH]; intros n w.
  - exists (painter (self w)), [], []. destruct w as [[] ? ?].
    unfold_worlds; unfold group_draw_calls; cbn. rewrite app_nil_r. auto.
  - cbn [enumerate]. rewrite for_each_cons, draw_group_eq. cbn [fst snd].
    destruct (Group_draw g (painter (self w))) as [e|p1] eqn:E.
    + exists (painter (self w)), [Call_Group_draw n g], (group_draw_calls (S n) gs).
      destruct w as [[] ? ?]. unfold_worlds; cbn. repeat split; auto. discriminate.
    + destruct (IH (S n) (with_painter p1 (logged [Call_Group_draw n g] w)))
        as (p2 & done & rest & Heq & Hw & Hr & Hc).
      exists p2, (Call_Group_draw n g :: done), rest.
      split; [unfold group_draw_calls in *; cbn; rewrite <- Heq; reflexivity|].
      split; [|split; [exact Hr|]].
      * rewrite Hw. unfold_worlds; cbn. rewrite <- app_assoc. reflexivity.
      * intros K. rewrite (Hc K). cbn. canvas_facts K. exact E.
Qed.

End DrawProperties.

(** ** The order of draw calls *)

Section DrawOrder.
Context `{!Collaborators}.

(** Runs [draw] forward through the collaborator calls that are known to
    return. *)
Ltac draw_forward HT HTl HG HM HF :=
  unfold draw; unfold_monad; cbn -[draw_group for_each];
  repeat match goal with
  | |- context [Title_draw ?a ?p] =>
      destruct (HT a p) as [? ->]; cbn -[draw_group for_each]
  | |- context [Timeline_draw ?a ?p] =>
      destruct (HTl a p) as [? ->]; cbn -[draw_group for_each]
  | |- context [for_each draw_group (enumerate 0 ?gs) ?w] =>
      destruct (draw_groups_return gs HG 0 w) as [? ->]; cbn -[draw_group for_each]
  | |- context [Marker_draw ?a ?p] =>
      destruct (HM a p) as [? ->]; cbn -[draw_group for_each]
  | |- context [Footer_draw ?a ?p] =>
      destruct (HF a p) as [? ->]; cbn -[draw_group for_each]
  end.

Lemma draw_complete (w : World) (t : Title) (tl : Timeline) (m : Marker) (f : Footer) :
  draw_methods_return ->
  title (self w) = Some t -> timeline (self w) = Some tl ->
  marker (self w) = Some m -> footer (self w) = Some f ->
  exists p,
    draw w = (with_painter p (logged (draw_order t tl (groups (self w)) m f) w), inr tt).
Proof.
  intros (HT & HTl & HG & HM & HF) Ht Htl Hm Hf.
  destruct w as [[] cs out]; cbn in *; subst.
  draw_forward HT HTl HG HM HF.
  eexists. unfold_worlds; unfold draw_order; cbn.
  repeat rewrite <- app_assoc. cbn. reflexivity.
Qed.

Lemma draw_marker_absent (w : World) (t : Title) (tl : Timeline) :
  draw_methods_return ->
  title (self w) = Some t -> timeline (self w) = Some tl -> marker (self w) = None ->
  exists p,
    draw w
    = (with_painter p
         (logged ([Call_Title_draw t; Call_Timeline_draw tl]
                  ++ group_draw_calls 0 (groups (self w))) w),
       inl AttributeError).
Proof.
  intros (HT & HTl & HG & HM & HF) Ht Htl Hm.
  destruct w as [[] cs out]; cbn in *; subst.
  draw_forward HT HTl HG HM HF.
  eexists. unfold_worlds; cbn. repeat rewrite <- app_assoc. cbn. reflexivity.
Qed.

(** A missing title, timeline or footer makes [draw] raise
    [AttributeError], whatever else is there. *)
Lemma draw_component_missing (w : World) :
  draw_methods_return ->
  title (self w) = None \/ timeline (self w) = None \/ footer (self w) = None ->
  (draw w).2 = inl AttributeError.
Proof.
  intros (HT & HTl & HG & HM & HF) Hmiss.
  destruct w as [[? ? ? t tl f m ? ? ? ?] cs out]; cbn in Hmiss.
  destruct t, tl, m, f; try (destruct Hmiss as [|[|]]; discriminate);
    draw_forward HT HTl HG HM HF; reflexivity.
Qed.

(** On any roadmap, the draw calls that [draw] makes are an initial
    segment of the fixed order, and [draw] leaves everything but the
    painter as it was. *)
Lemma draw_calls_prefix (w : World) :
  exists p made,
    (draw w).1 = with_painter p (logged made w)
    /\ made `prefix_of` reachable_draw_order (self w)
    /\ (collaborators_keep_canvas -> canvas p = canvas (painter (self w))).
Proof.
  destruct w as [[wd ht fl t tl f m pt gs ly md] cs out].
  unfold draw, reachable_draw_order; unfold_monad;
    cbn -[draw_group for_each group_draw_calls].
  assert (Hnil : forall r : Roadmap, mk_World r cs out = logged [] (mk_World r cs out))
    by (intros; unfold logged; cbn; rewrite app_nil_r; reflexivity).
  destruct t as [t|]; cbn -[draw_group for_each group_draw_calls];
    [|exists pt, []; split; [apply Hnil | split; [apply prefix_nil | reflexivity]]].
  destruct (Title_draw t pt) as [e|p1] eqn:E1; cbn -[draw_group for_each group_draw_calls];
    [exists pt, [Call_Title_draw t];
     split; [reflexivity | split; [eexists; reflexivity | reflexivity]]|].
  destruct tl as [tl|]; cbn -[draw_group for_each group_draw_calls];
    [|exists p1, [Call_Title_draw t];
      split; [reflexivity | split; [eexists; reflexivity | intros K; canvas_facts K; exact E1]]].
  destruct (Timeline_draw tl p1) as [e|p2] eqn:E2;
    cbn -[draw_group for_each group_draw_calls];
    [exists p1, [Call_Title_draw t; Call_Timeline_draw tl]; split;
       [unfold_worlds; cbn; rewrite <- app_assoc; reflexivity
       |split; [eexists; reflexivity | intros K; canvas_facts K; exact E1]]|].
  match goal with |- context [for_each draw_group (enumerate 0 gs) ?w0] =>
    destruct (draw_groups_prefix gs 0 w0) as (p3 & done & rest & Hsplit & Hw & Hr & Hc);
    destruct (for_each draw_group (enumerate 0 gs) w0) as [w3 r3] end.
  cbn in Hw, Hr, Hc. subst w3. rewrite Hsplit.
  assert (Hc3 : collaborators_keep_canvas -> canvas p3 = canvas pt)
    by (intros K; rewrite (Hc K); canvas_facts K; congruence).
  clear Hc.
  destruct r3 as [e|[]]; cbn -[draw_group for_each group_draw_calls].
  { exists p3, ([Call_Title_draw t; Call_Timeline_draw tl] ++ done). split; [|split; [|exact Hc3]].
    - unfold_worlds; cbn. repeat rewrite <- app_assoc. reflexivity.
    - eexists. cbn. repeat rewrite <- app_assoc. reflexivity. }
  rewrite (Hr eq_refl), app_nil_r.
  destruct m as [m|]; cbn -[draw_group for_each group_draw_calls].
  2:{ exists p3, ([Call_Title_draw t; Call_Timeline_draw tl] ++ done).
      split; [|split; [|exact Hc3]].
      - unfold_worlds; cbn. repeat rewrite <- app_assoc. reflexivity.
      - eexists. cbn. repeat rewrite <- app_assoc. reflexivity. }
  destruct (Marker_draw m p3) as [e|p4] eqn:E4; cbn -[draw_group for_each group_draw_calls].
  { exists p3, ([Call_Title_draw t; Call_Timeline_draw tl] ++ done ++ [Call_Marker_draw m]).
    split; [|split; [|exact Hc3]].
    - unfold_worlds; cbn. repeat rewrite <- app_assoc. reflexivity.
    - eexists. cbn. repeat rewrite <- app_assoc. reflexivity. }
  assert (Hc4 : collaborators_keep_canvas -> canvas p4 = canvas pt)
    by (intros K; rewrite <- (Hc3 K); canvas_facts K; exact E4).
  destruct f as [f|]; cbn -[draw_group for_each group_draw_calls].
  2:{ exists p4, ([Call_Title_draw t; Call_Timeline_draw tl] ++ done ++ [Call_Marker_draw m]).
      split; [|split; [|exact Hc4]].
      - unfold_worlds; cbn. repeat rewrite <- app_assoc. reflexivity.
      - eexists. cbn. repeat rewrite <- app_assoc. rewrite app_nil_r. reflexivity. }
  destruct (Footer_draw f p4) as [e|p5] eqn:E5; cbn -[draw_group for_each group_draw_calls].
  - exists p4, ([Call_Title_draw t; Call_Timeline_draw tl] ++ done
                ++ [Call_Marker_draw m; Call_Footer_draw f]).
    split; [|split; [|exact Hc4]].
    + unfold_worlds; cbn. repeat rewrite <- app_assoc. reflexivity.
    + eexists. cbn. repeat rewrite <- app_assoc. rewrite app_nil_r. reflexivity.
  - exists p5, ([Call_Title_draw t; Call_Timeline_draw tl] ++ done
                ++ [Call_Marker_draw m; Call_Footer_draw f]).
    split; [|split].
    + unfold_worlds; cbn. repeat rewrite <- app_assoc. reflexivity.
    + eexists. cbn. repeat rewrite <- app_assoc. rewrite app_nil_r. reflexivity.
    + intros K. rewrite <- (Hc4 K). canvas_facts K. exact E5.
Qed.

End DrawOrder.

(** ** The dump *)

(** A loop whose rounds print known lines and return. *)
Lemma for_each_printed {A : Type} (body : A -> M unit) (lines : A -> list string)
    (l : list A) :
  (forall x w, body x w = (printed (lines x) w, inr tt)) ->
  forall w, for_each body l w = (printed (concat (lines <$> l)) w, inr tt).
Proof.
  intros Hbody. induction l as [|x l IH]; intros w.
  - destruct w; unfold printed; cbn. rewrite app_nil_r. reflexivity.
  - rewrite for_each_cons, Hbody, IH. unfold printed; cbn.
    rewrite <- app_assoc. reflexivity.
Qed.

Lemma printed_nil (w : World) : printed [] w = w.
Proof. destruct w; unfold printed; cbn. rewrite app_nil_r. reflexivity. Qed.

Lemma only_prints_ret {A : Type} (a : A) : only_prints (mret a).
Proof. intros w. exists [], (inr a). rewrite printed_nil. reflexivity. Qed.

Lemma only_prints_get {A : Type} (f : Roadmap -> A) : only_prints (get f).
Proof. intros w. exists [], (inr (f (self w))). rewrite printed_nil. reflexivity. Qed.

Lemma only_prints_deref {A : Type} (x : option A) : only_prints (deref x).
Proof.
  intros w. destruct x as [a|]; [exists [], (inr a) | exists [], (inl AttributeError)];
    rewrite printed_nil; reflexivity.
Qed.

Lemma only_prints_print (line : string) : only_prints (print line).
Proof. intros w. exists [line], (inr tt). reflexivity. Qed.

Lemma only_prints_bind {A B : Type} (m : M A) (f : A -> M B) :
  only_prints m -> (forall a, only_prints (f a)) -> only_prints (m ≫= f).
Proof.
  intros Hm Hf w. unfold mbind, M_bind. destruct (Hm w) as (l1 & r1 & ->).
  destruct r1 as [e|a]; [eauto|].
  destruct (Hf a (printed l1 w)) as (l2 & r2 & ->).
  exists (l1 ++ l2), r2. unfold printed; cbn. rewrite <- app_assoc. reflexivity.
Qed.

Lemma only_prints_for_each {A : Type} (body : A -> M unit) (l : list A) :
  (forall x, only_prints (body x)) -> only_prints (for_each body l).
Proof. intros Hbody w. apply for_each_prints. intros x w0. apply Hbody. Qed.

Section DumpProperties.
Context `{!Collaborators}.

Lemma print_parallel_task_eq (t : Task) (w : World) :
  print_parallel_task t w = (printed (parallel_task_lines t) w, inr tt).
Proof.
  unfold print_parallel_task, mbind, M_bind. unfold print at 1.
  rewrite for_each_print. unfold printed, parallel_task_lines; cbn.
  rewrite <- app_assoc. reflexivity.
Qed.

Lemma print_task_eq (t : Task) (w : World) :
  print_task t w = (printed (task_lines t) w, inr tt).
Proof.
  unfold print_task, mbind, M_bind. unfold print at 1.
  rewrite for_each_print.
  rewrite (for_each_printed _ parallel_task_lines) by apply print_parallel_task_eq.
  unfold printed, task_lines; cbn. repeat rewrite <- app_assoc. reflexivity.
Qed.

Lemma print_group_eq (g : Group) (w : World) :
  print_group g w = (printed (group_lines g) w, inr tt).
Proof.
  unfold print_group, mbind, M_bind. unfold print at 1.
  rewrite (for_each_printed _ task_lines) by apply print_task_eq.
  unfold printed, group_lines; cbn. repeat rewrite <- app_assoc. reflexivity.
Qed.

(** The whole dump of a roadmap whose title, timeline and footer are set. *)
Lemma print_roadmap_all (w : World) (t : Title) (tl : Timeline) (f : Footer) :
  title (self w) = Some t -> timeline (self w) = Some tl -> footer (self w) = Some f ->
  print_roadmap "all" w
  = (printed ([title_line t] ++ timeline_lines tl
              ++ concat (group_lines <$> groups (self w)) ++ [footer_line f]) w,
     inr tt).
Proof.
  intros Ht Htl Hf. destruct w as [[] cs out]; cbn in *; subst.
  unfold print_roadmap, mbind, M_bind, mret, M_ret, get, deref.
  unfold print at 1 2. cbn -[for_each print].
  rewrite for_each_print. cbn -[for_each print].
  rewrite (for_each_printed _ group_lines) by apply print_group_eq.
  unfold print, printed, timeline_lines; cbn. repeat rewrite <- app_assoc. reflexivity.
Qed.

(** Whatever the area and the roadmap, the dump only prints. *)
Lemma print_roadmap_prints (print_area : string) : only_prints (print_roadmap print_area).
Proof.
  unfold print_roadmap.
  repeat first
    [ apply only_prints_bind; [|intros ?]
    | apply only_prints_get | apply only_prints_deref | apply only_prints_ret
    | apply only_prints_print
    | apply only_prints_for_each; intros ?
    | match goal with |- only_prints (if ?b then _ else _) => destruct b end
    | (intros w; rewrite print_group_eq; eauto) ].
Qed.

End DumpProperties.

(** ** What every operation leaves in place *)

(** Closes the clauses of [evolves] after a method body was run. *)
Ltac evolves_goal :=
  constructor; cbn; intros; rewrite ?List.filter_app; cbn; rewrite ?app_nil_r;
  try reflexivity; try lia; auto; try (unfold canvas; cbn; reflexivity);
  try (match goal with K : collaborators_keep_canvas |- _ => canvas_facts K; congruence end);
  try (unfold marker_in_sync in *; cbn in *; intuition eauto; fail).

Lemma filter_none {A : Type} (P : A -> bool) (l : list A) :
  Forall (fun x => P x = false) l -> List.filter P l = [].
Proof. induction 1 as [|x l Hx _ IH]; cbn; [reflexivity|]. rewrite Hx. exact IH. Qed.

Lemma reachable_draw_order_quiet (r : Roadmap) :
  Forall (fun c => is_canvas_setup c = false /\ forall i, is_layout_of i c = false)
         (reachable_draw_order r).
Proof.
  unfold reachable_draw_order, group_draw_calls.
  repeat rewrite Forall_app. repeat split;
    try (destruct (title r), (timeline r), (marker r), (footer r); cbn; repeat constructor; fail).
  apply Forall_fmap, Forall_forall. intros [i g] _. cbn. auto.
Qed.

Section EvolutionProperties.
Context `{!Collaborators} `{!Interpreter}.

Lemma evolves_refl w : evolves w w.
Proof. constructor; auto. Qed.

Lemma evolves_trans w1 w2 w3 : evolves w1 w2 -> evolves w2 w3 -> evolves w1 w3.
Proof.
intros [a1 a2 a3 a4 a5 a6 a7 a8 a9] [b1 b2 b3 b4 b5 b6 b7 b8 b9].
constructor; try congruence; auto; try lia.
- intros K. rewrite (b4 K). exact (a4 K).
- intros i Hi. rewrite b7 by lia. exact (a7 i Hi).
Qed.

Lemma set_title_evolves text font font_size font_colour w :
evolves w (set_title text font font_size font_colour w).1.
Proof. destruct w as [[] ? ?]. unfold set_title. crunch; evolves_goal. Qed.

Lemma set_footer_evolves text font font_size font_colour w :
evolves w (set_footer text font font_size font_colour w).1.
Proof. destruct w as [[] ? ?]. unfold set_footer. crunch; evolves_goal. Qed.

Lemma set_timeline_evolves mode start n font font_size font_colour fill_colour w :
evolves w (set_timeline mode start n font font_size font_colour fill_colour w).1.
Proof. destruct w as [[] ? ?]. unfold set_timeline, strptime. crunch; evolves_goal. Qed.

Lemma set_marker_evolves f c s lc lw ls w :
evolves w (set_marker f c s lc lw ls w).1.
Proof. destruct w as [[] ? ?]. unfold set_marker. crunch; evolves_goal. Qed.

Lemma save_evolves w : evolves w (save w).1.
Proof. destruct w as [[] ? ?]. unfold save. crunch; evolves_goal. Qed.

Lemma draw_evolves w : evolves w (draw w).1.
Proof.
destruct (draw_calls_prefix w) as (p & made & -> & [rest Hmade] & Hc).
pose proof (reachable_draw_order_quiet (self w)) as Hq.
rewrite Hmade, Forall_app in Hq. destruct Hq as [Hq _].
destruct w as [[] ? ?]. unfold_worlds.
constructor; cbn in *; intros; rewrite ?List.filter_app; auto.
- rewrite (filter_none is_canvas_setup made), app_nil_r; [reflexivity|].
  eapply Forall_impl; [exact Hq|]. cbn. tauto.
- rewrite (filter_none (is_layout_of i) made), app_nil_r; [reflexivity|].
  eapply Forall_impl; [exact Hq|]. cbn. intros c [_ Hl]. apply Hl.
Qed.

Lemma print_roadmap_evolves a w : evolves w (print_roadmap a w).1.
Proof.
destruct (print_roadmap_prints a w) as (lines & r & ->).
destruct w as [[] ? ?]. unfold_worlds. evolves_goal.
Qed.

Lemma invoke_evolves c w : evolves w (invoke c w).1.
Proof.
destruct c; cbn [invoke];
  auto using set_marker_evolves, set_title_evolves, set_footer_evolves,
    set_timeline_evolves, draw_evolves, save_evolves, print_roadmap_evolves.
Qed.

Lemma populate_evolves i f w : evolves w (populate i f w).
Proof.
destruct w as [[] ? ?]. unfold populate. evolves_goal. rewrite length_alter. lia.
Qed.

Lemma add_group_enter_eq text font font_size font_colour fill_colour text_alignment w :
add_group_enter text font font_size font_colour fill_colour text_alignment w
= (mk_World (set_groups (groups (self w)
               ++ [new_Group text font font_size font_colour fill_colour text_alignment])
               (self w)) (calls w) (stdout w),
   inr (length (groups (self w)))).
Proof. reflexivity. Qed.

Lemma add_group_exit_eq i w :
add_group_exit i w =
match groups (self w) !! i with
| None => (w, inr tt)
| Some g =>
    let call := Call_Group_set_draw_position i g (timeline (self w)) in
    match Group_set_draw_position g (painter (self w)) (timeline (self w)) with
    | inl e => (logged [call] w, inl e)
    | inr (g', p') =>
        (with_painter p'
           (mk_World (set_groups (<[i := g']> (groups (self w))) (self w))
                     (calls w ++ [call]) (stdout w)), inr tt)
    end
end.
Proof.
unfold add_group_exit; unfold_monad; cbn.
destruct (groups (self w) !! i) as [g|]; [|reflexivity]. cbn.
destruct (Group_set_draw_position _ _ _) as [e|[g' p']]; reflexivity.
Qed.

Lemma with_add_group_evolves text font font_size font_colour fill_colour text_alignment body w :
(forall i w1, evolves w1 (body i w1).1) ->
evolves w (with_add_group text font font_size font_colour fill_colour text_alignment body w).1.
Proof.
intros Hbody. unfold with_add_group. rewrite add_group_enter_eq.
match goal with |- context [body ?i ?w1] =>
  pose proof (Hbody i w1) as Hb; destruct (body i w1) as [w2 raised] end.
cbn [fst] in Hb. rewrite add_group_exit_eq.
destruct Hb as [b1 b2 b3 b4 b5 b6 b7 b8 b9]. cbn in *. rewrite length_app in *. cbn in *.
destruct (groups (self w2) !! _) as [g|] eqn:Hg.
2:{ apply lookup_ge_None in Hg. lia. }
cbn. destruct (Group_set_draw_position _ _ _) as [e|[g' p']] eqn:E; cbn.
- destruct w as [[] ? ?], w2 as [[] ? ?]; unfold logged; cbn in *.
  constructor; cbn; intros; rewrite ?List.filter_app; cbn; rewrite ?app_nil_r; auto; try lia.
  rewrite (proj2 (Nat.eqb_neq _ _)) by lia. rewrite app_nil_r. apply b7. lia.
- destruct w as [[] ? ?], w2 as [[] ? ?]; unfold with_painter; cbn in *.
  constructor; cbn; intros; rewrite ?List.filter_app; cbn; rewrite ?app_nil_r; auto; try lia.
  + rewrite <- b4 by assumption.
    match goal with K : collaborators_keep_canvas |- _ => canvas_facts K end. exact E.
  + rewrite length_insert. lia.
  + rewrite (proj2 (Nat.eqb_neq _ _)) by lia. rewrite app_nil_r. apply b7. lia.
Qed.

Lemma run_evolves p : forall w, evolves w (run p w).1.
Proof.
induction p as [|e|c k IHk|i f k IHk|t f s c fc a body IHbody k IHk]; intros w; cbn [run].
- apply evolves_refl.
- apply evolves_refl.
- pose proof (invoke_evolves c w) as Hc. destruct (invoke c w) as [w' [e|[]]]; [exact Hc|].
  eapply evolves_trans; [exact Hc | apply IHk].
- eapply evolves_trans; [apply populate_evolves | apply IHk].
- pose proof (with_add_group_evolves t f s c fc a (fun g => run (body g)) w
                (fun i w1 => IHbody i w1)) as Hw.
  destruct (with_add_group _ _ _ _ _ _ _ w) as [w' [e|]]; [exact Hw|].
  eapply evolves_trans; [exact Hw | apply IHk].
Qed.
End EvolutionProperties.

(** ** Parsing the start date *)

Section ParsingProperties.
Context `{!Interpreter}.

Example strptime_iso : strptime_ymd "2024-01-15" = inr (midnight 2024 1 15).
Proof. reflexivity. Qed.

Example strptime_unpadded : strptime_ymd "2024-1-5" = inr (midnight 2024 1 5).
Proof. reflexivity. Qed.

Example strptime_leap_day : strptime_ymd "2024-02-29" = inr (midnight 2024 2 29).
Proof. reflexivity. Qed.

Example strptime_no_leap_day : strptime_ymd "2023-02-29" = inl ValueError.
Proof. reflexivity. Qed.

Example strptime_month_13 : strptime_ymd "2024-13-01" = inl ValueError.
Proof. reflexivity. Qed.

Example strptime_slashes : strptime_ymd "15/01/2024" = inl ValueError.
Proof. reflexivity. Qed.

Example strptime_trailing : strptime_ymd "2024-01-15T00:00" = inl ValueError.
Proof. reflexivity. Qed.

Example strptime_year_zero : strptime_ymd "0000-01-01" = inl ValueError.
Proof. reflexivity. Qed.

Example strptime_space_padded_day : strptime_ymd "2024-01- 5" = inr (midnight 2024 1 5).
Proof. reflexivity. Qed.

Lemma decode_utf8_ascii (a : ascii) (rest : string) :
  code a < 128 -> decode_utf8 (String a rest) = Some (code a, rest).
Proof.
  intros Ha. unfold decode_utf8.
  destruct (code a <? 128) eqn:E; [reflexivity|]. apply Z.ltb_ge in E. lia.
Qed.

Lemma digit_at_digit_char (k : Z) (rest : string) :
  0 <= k <= 9 -> digit_at (String (digit_char k) rest) = Some (k, rest).
Proof.
  intros Hk.
  assert (Hcases : k = 0 \/ k = 1 \/ k = 2 \/ k = 3 \/ k = 4 \/ k = 5 \/ k = 6 \/ k = 7
                   \/ k = 8 \/ k = 9) by lia.
  repeat (destruct Hcases as [->|Hcases]; [reflexivity|]).
  subst. reflexivity.
Qed.

Lemma match_Y_iso (y : Z) (rest : string) :
  0 <= y <= 9999 ->
  match_Y (String (digit_char (y / 1000 mod 10)) (String (digit_char (y / 100 mod 10))
          (String (digit_char (y / 10 mod 10)) (String (digit_char (y mod 10)) rest))))
  = Some (y, rest).
Proof.
  intros Hy. unfold match_Y.
  pose proof (Z.mod_pos_bound (y / 1000) 10).
  pose proof (Z.mod_pos_bound (y / 100) 10).
  pose proof (Z.mod_pos_bound (y / 10) 10).
  pose proof (Z.mod_pos_bound y 10).
  rewrite !digit_at_digit_char by lia.
  do 2 f_equal.
  Z.to_euclidean_division_equations. lia.
Qed.

Lemma days_in_month_le_31 (y m : Z) : days_in_month y m <= 31.
Proof. unfold days_in_month. repeat case_match; lia. Qed.

Lemma strptime_ymd_iso_date (y m d : Z) :
  valid_date y m d = true -> strptime_ymd (iso_date y m d) = inr (midnight y m d).
Proof.
  intros Hv. pose proof Hv as Hb. unfold valid_date in Hb.
  repeat (apply andb_true_iff in Hb; destruct Hb as [Hb ?]).
  repeat match goal with H : (_ <=? _) = true |- _ => apply Z.leb_le in H end.
  pose proof (days_in_month_le_31 y m).
  unfold strptime_ymd, iso_date. rewrite match_Y_iso by lia. cbv beta iota.
  remember (valid_date y) as vd eqn:Evd.
  assert (Hm : m = 1 \/ m = 2 \/ m = 3 \/ m = 4 \/ m = 5 \/ m = 6 \/ m = 7 \/ m = 8
               \/ m = 9 \/ m = 10 \/ m = 11 \/ m = 12) by lia.
  assert (Hd : d = 1 \/ d = 2 \/ d = 3 \/ d = 4 \/ d = 5 \/ d = 6 \/ d = 7 \/ d = 8
               \/ d = 9 \/ d = 10 \/ d = 11 \/ d = 12 \/ d = 13 \/ d = 14 \/ d = 15
               \/ d = 16 \/ d = 17 \/ d = 18 \/ d = 19 \/ d = 20 \/ d = 21 \/ d = 22
               \/ d = 23 \/ d = 24 \/ d = 25 \/ d = 26 \/ d = 27 \/ d = 28 \/ d = 29
               \/ d = 30 \/ d = 31) by lia.
  clear - Hv Hm Hd.
  repeat (destruct Hm as [->|Hm]); try subst m;
    repeat (destruct Hd as [->|Hd]); try subst d;
    vm_compute; rewrite Hv; reflexivity.
Qed.

(** The parse has one fault only. *)
Lemma strptime_ymd_error s e : strptime_ymd s = inl e -> e = ValueError.
Proof.
  unfold strptime_ymd. intros Hs.
  repeat case_match; congruence.
Qed.

End ParsingProperties.

(** Digits of other scripts, under the Unicode 14.0 table: [\d] of the
    year and of the second alternative of [%d] takes them, the other
    alternatives and [%m] do not. *)
Example strptime_fullwidth_year :
  @strptime_ymd TestDouble.interpreter "２０２４-01-15" = inr (midnight 2024 1 15).
Proof. reflexivity. Qed.

Example strptime_fullwidth_day :
  @strptime_ymd TestDouble.interpreter "2024-01-1５" = inr (midnight 2024 1 15).
Proof. reflexivity. Qed.

Example strptime_arabic_indic_year :
  @strptime_ymd TestDouble.interpreter "٢٠٢٤-01-15" = inr (midnight 2024 1 15).
Proof. reflexivity. Qed.

Example strptime_fullwidth_month :
  @strptime_ymd TestDouble.interpreter "2024-０1-15" = inl ValueError.
Proof. reflexivity. Qed.

Example strptime_fullwidth_day_tens :
  @strptime_ymd TestDouble.interpreter "2024-01-２5" = inl ValueError.
Proof. reflexivity. Qed.

Example strptime_fullwidth_after_three :
  @strptime_ymd TestDouble.interpreter "2024-01-3１" = inl ValueError.
Proof. reflexivity. Qed.

(** ** The layout phases of set_timeline and set_footer *)

Section LayoutPhases.
Context `{!Collaborators} `{!Interpreter}.

Lemma set_timeline_malformed mode s n font font_size font_colour fill_colour w e :
  strptime_ymd s = inl e ->
  set_timeline mode (Some (PyStr s)) n font font_size font_colour fill_colour w = (w, inl e).
Proof.
  intros Hs. unfold set_timeline, strptime; unfold_monad; cbn. rewrite Hs. reflexivity.
Qed.

Lemma set_timeline_not_str mode start n font font_size font_colour fill_colour w :
  (forall s, start <> Some (PyStr s)) ->
  set_timeline mode start n font font_size font_colour fill_colour w = (w, inl TypeError).
Proof.
  intros Hs. unfold set_timeline, strptime, default_start; unfold_monad.
  destruct start as [[s| | |]|]; cbn; try reflexivity. destruct (Hs s eq_refl).
Qed.

Lemma set_timeline_constructs mode s d n font font_size font_colour fill_colour w :
  strptime_ymd s = inr d ->
  exists rest,
    calls (set_timeline mode (Some (PyStr s)) n font font_size font_colour fill_colour w).1
    = calls w ++ Call_Timeline_set_draw_position
                   (new_Timeline mode d n font font_size font_colour fill_colour) :: rest.
Proof.
  intros Hs. destruct w as [[] ? ?].
  unfold set_timeline, strptime; unfold_monad; cbn. rewrite Hs. cbn.
  repeat (case_match; unfold_monad; cbn in *; simplify_eq/=); rewrite <- ?app_assoc; cbn; eauto.
Qed.

(** Runs a layout method forward through collaborator calls that return. *)
Ltac layout_forward HT HTl HML HMl HG HF :=
    unfold_monad; cbn;
    repeat match goal with
    | |- context [Title_set_draw_position ?a ?p] =>
        destruct (HT a p) as [[? ?] ->]; cbn
    | |- context [Timeline_set_draw_position ?a ?p] =>
        destruct (HTl a p) as [[? ?] ->]; cbn
    | |- context [Marker_set_label_draw_position ?a ?p ?t] =>
        destruct (HML a p t) as [[? ?] ->]; cbn
    | |- context [Marker_set_line_draw_position ?a ?p] =>
        destruct (HMl a p) as [[? ?] ->]; cbn
    | |- context [Footer_set_draw_position ?a ?p ?y] =>
        destruct (HF a p y) as [[? ?] ->]; cbn
    end.

Lemma set_timeline_calls mode s d n font font_size font_colour fill_colour w :
  layout_methods_return ->
  strptime_ymd s = inr d ->
  (show_current_date_marker (self w) = true -> is_Some (marker (self w))) ->
  let result := set_timeline mode (Some (PyStr s)) n font font_size font_colour fill_colour w in
  exists tl',
    result.2 = inr tt
    /\ timeline (self result.1) = Some tl'
    /\ calls result.1
       = calls w
         ++ [Call_Timeline_set_draw_position
               (new_Timeline mode d n font font_size font_colour fill_colour)]
         ++ marker_phase (self w) (fun m => Call_Marker_set_label_draw_position m tl')
    /\ (show_current_date_marker (self w) = false -> marker (self result.1) = marker (self w)).
Proof.
  intros (HT & HTl & HML & HMl & HG & HF) Hs Hm.
  destruct w as [[wd ht fl t tl f m pt gs ly md] cs out]. cbn in Hm.
  unfold set_timeline, strptime, marker_phase; unfold_monad; cbn. rewrite Hs. cbn.
  destruct fl.
  - destruct (Hm eq_refl) as [m0 ->]. layout_forward HT HTl HML HMl HG HF.
    eexists. repeat split; rewrite <- ?app_assoc; cbn; try reflexivity. discriminate.
  - layout_forward HT HTl HML HMl HG HF.
    eexists. repeat split; rewrite ?app_nil_r; reflexivity.
Qed.

Lemma set_footer_calls text font font_size font_colour w :
  layout_methods_return ->
  (show_current_date_marker (self w) = true -> is_Some (marker (self w))) ->
  let result := set_footer text font font_size font_colour w in
  result.2 = inr tt
  /\ calls result.1
     = calls w
       ++ marker_phase (self w) Call_Marker_set_line_draw_position
       ++ [Call_Footer_set_draw_position
             (Footer_set_text text (new_Footer text font font_size font_colour))
             (last_y_pos (self w))]
  /\ (show_current_date_marker (self w) = false -> marker (self result.1) = marker (self w)).
Proof.
  intros (HT & HTl & HML & HMl & HG & HF) Hm.
  destruct w as [[wd ht fl t tl f m pt gs ly md] cs out]. cbn in Hm.
  unfold set_footer, marker_phase; unfold_monad; cbn.
  destruct fl.
  - destruct (Hm eq_refl) as [m0 ->]. layout_forward HT HTl HML HMl HG HF.
    repeat split; rewrite <- ?app_assoc; cbn; try reflexivity. discriminate.
  - layout_forward HT HTl HML HMl HG HF.
    repeat split; rewrite ?app_nil_r; reflexivity.
Qed.

Lemma set_footer_marker_missing text font font_size font_colour w :
  show_current_date_marker (self w) = true -> marker (self w) = None ->
  set_footer text font font_size font_colour w = (w, inl AttributeError).
Proof.
  intros Hf Hm. destruct w as [[] ? ?]; cbn in *; subst.
  reflexivity.
Qed.

(** A block that only populates changes nothing but the groups. *)
Lemma run_block (edits : list (Group -> Group)) (g : nat) :
  forall w, exists gs',
    length gs' = length (groups (self w))
    /\ run (block edits g) w = (mk_World (set_groups gs' (self w)) (calls w) (stdout w), None).
Proof.
  induction edits as [|f edits IH]; intros w.
  - exists (groups (self w)). split; [reflexivity|]. destruct w as [[] ? ?]. reflexivity.
  - cbn [block foldr run]. fold (block edits g).
    destruct (IH (populate g f w)) as (gs' & Hlen & ->).
    exists gs'. split.
    + rewrite Hlen. unfold populate; cbn. apply length_alter.
    + destruct w as [[] ? ?]. reflexivity.
Qed.

Lemma run_with_groups (blocks : list (string * list (Group -> Group))) (k : program) :
  layout_methods_return ->
  forall w, is_Some (timeline (self w)) ->
  exists gs' p' cs,
    run (with_groups blocks k) w
    = run k (mk_World (set_painter p' (set_groups gs' (self w))) (calls w ++ cs) (stdout w))
    /\ call_name <$> cs = replicate (length blocks) "Group.set_draw_position".
Proof.
  intros (_ & _ & _ & _ & HG & _).
  induction blocks as [|[text edits] blocks IH]; intros w [tl Htl].
  - exists (groups (self w)), (painter (self w)), [].
    destruct w as [[] ? ?]; cbn. rewrite app_nil_r. auto.
  - cbn [with_groups run]. unfold with_add_group. rewrite add_group_enter_eq.
    match goal with |- context [run (block edits ?g) ?w1] =>
      destruct (run_block edits g w1) as (gs1 & Hlen & ->) end.
    rewrite add_group_exit_eq. cbn in *. rewrite length_app in Hlen. cbn in Hlen.
    destruct (lookup_lt_is_Some_2 gs1 (length (groups (self w)))) as [g1 Hg1]; [lia|].
    rewrite Hg1, Htl. cbn.
    destruct (HG g1 (painter (self w)) tl) as [[g2 p2] ->]. cbn.
    match goal with |- context [run (with_groups blocks k) ?w2] =>
      destruct (IH w2) as (gs' & p' & cs & -> & Hcs) end.
    { cbn. eauto. }
    destruct w as [[] ? ?]. eexists gs', p', (_ :: cs). split.
    + cbn. rewrite <- app_assoc. reflexivity.
    + cbn. rewrite Hcs. reflexivity.
Qed.

Lemma set_marker_eq (f c : string) (sz : Z) (lc : string) (lw : Z) (ls : string) (w : World) :
  set_marker f c sz lc lw ls w
  = (mk_World (set_show_current_date_marker true
                 (set_marker_attr (Some (new_Marker f sz c lc lw ls)) (self w)))
              (calls w) (stdout w), inr tt).
Proof. reflexivity. Qed.

Lemma set_title_returns (text font : string) (font_size : Z) (font_colour : string)
    (w : World) :
  layout_methods_return ->
  exists t' p',
    set_title text font font_size font_colour w
    = (mk_World (set_painter p' (set_title_attr (Some t') (self w)))
                (calls w ++ [Call_Title_set_draw_position
                               (Title_set_text text
                                  (new_Title text font font_size font_colour))])
                (stdout w), inr tt).
Proof.
  intros (HT & _). destruct w as [[wd ht fl t tl f m pt gs ly md] cs out].
  unfold set_title; unfold_monad; cbn.
  destruct (HT (Title_set_text text (new_Title text font font_size font_colour)) pt)
    as [[t' p'] ->].
  exists t', p'. reflexivity.
Qed.

Lemma set_timeline_returns_marked (mode : TimelineMode) (s : string) (d : datetime)
    (n : Z) (font : string) (font_size : Z) (font_colour fill_colour : string)
    (w : World) (m : Marker) :
  layout_methods_return ->
  strptime_ymd s = inr d ->
  show_current_date_marker (self w) = true -> marker (self w) = Some m ->
  exists tl' m' p',
    set_timeline mode (Some (PyStr s)) n font font_size font_colour fill_colour w
    = (mk_World (set_painter p' (set_marker_attr (Some m')
                                   (set_timeline_attr (Some tl') (self w))))
                (calls w ++ [Call_Timeline_set_draw_position
                               (new_Timeline mode d n font font_size font_colour
                                             fill_colour);
                             Call_Marker_set_label_draw_position m tl'])
                (stdout w), inr tt).
Proof.
  intros (_ & HTl & HML & _) Hs Hflag Hm.
  destruct w as [[wd ht fl t tl f m0 pt gs ly md] cs out]; cbn in Hflag, Hm; subst.
  unfold set_timeline, strptime; unfold_monad; cbn. rewrite Hs. cbn.
  destruct (HTl (new_Timeline mode d n font font_size font_colour fill_colour) pt)
    as [[tl' p1] ->]. cbn.
  destruct (HML m p1 tl') as [[m' p2] ->]. cbn.
  exists tl', m', p2. rewrite <- app_assoc. reflexivity.
Qed.

Lemma set_footer_returns_marked (text font : string) (font_size : Z) (font_colour : string)
    (w : World) (m : Marker) :
  layout_methods_return ->
  show_current_date_marker (self w) = true -> marker (self w) = Some m ->
  exists f' m' p',
    set_footer text font font_size font_colour w
    = (mk_World (set_painter p' (set_footer_attr (Some f')
                                   (set_marker_attr (Some m') (self w))))
                (calls w ++ [Call_Marker_set_line_draw_position m;
                             Call_Footer_set_draw_position
                               (Footer_set_text text
                                  (new_Footer text font font_size font_colour))
                               (last_y_pos (self w))])
                (stdout w), inr tt).
Proof.
  intros (_ & _ & _ & HMl & _ & HF) Hflag Hm.
  destruct w as [[wd ht fl t tl f m0 pt gs ly md] cs out]; cbn in Hflag, Hm; subst.
  unfold set_footer; unfold_monad; cbn.
  destruct (HMl m pt) as [[m' p1] ->]. cbn.
  destruct (HF (Footer_set_text text (new_Footer text font font_size font_colour)) p1 ly)
    as [[f' p2] ->]. cbn.
  exists f', m', p2. rewrite <- app_assoc. reflexivity.
Qed.

(** The layout calls of the phased program, by name. *)
Lemma phased_layout_order (wd ht : Z) (b : bool) (title_text s : string) (d : datetime)
    (n : Z) (blocks : list (string * list (Group -> Group))) (footer_text : string) :
  layout_methods_return ->
  strptime_ymd s = inr d ->
  exists w',
    run (phased title_text s n blocks footer_text) (new_Roadmap wd ht b) = (w', None)
    /\ call_name <$> calls w'
       = ["Painter"; "Painter.set_background_colour"; "Title.set_draw_position";
          "Timeline.set_draw_position"; "Marker.set_label_draw_position"]
         ++ replicate (length blocks) "Group.set_draw_position"
         ++ ["Marker.set_line_draw_position"; "Footer.set_draw_position"].
Proof.
  intros Hret Hs. unfold phased. cbn [run invoke].
  rewrite set_marker_eq.
  match goal with |- context [set_title ?a ?b ?c ?e ?w] =>
    destruct (set_title_returns a b c e w Hret) as (t' & p1 & ->) end.
  match goal with |- context [set_timeline ?md _ ?n ?f ?fs ?fc ?fl ?w] =>
    destruct (set_timeline_returns_marked md s d n f fs fc fl w _ Hret Hs eq_refl eq_refl)
      as (tl' & m1 & p2 & ->) end.
  match goal with |- context [run (with_groups blocks ?k) ?w] =>
    destruct (run_with_groups blocks k Hret w) as (gs' & p3 & cs & -> & Hcs) end.
  { eexists. reflexivity. }
  cbn [run invoke].
  match goal with |- context [set_footer ?a ?b ?c ?e ?w] =>
    destruct (set_footer_returns_marked a b c e w _ Hret eq_refl eq_refl)
      as (f' & m2 & p4 & ->) end.
  eexists. split; [reflexivity|].
  cbn [calls new_Roadmap]. rewrite !fmap_app, Hcs. rewrite <- !app_assoc. reflexivity.
Qed.
End LayoutPhases.

(** ** The marker flag *)

Ltac marker_state_goal :=
  unfold_worlds; unfold same_marker_state; cbn;
  split; [reflexivity | split; intros [? ?]; eauto].

Section MarkerFlag.
Context `{!Collaborators} `{!Interpreter}.

Lemma same_marker_state_refl r : same_marker_state r r.
Proof. split; reflexivity. Qed.

Lemma same_marker_state_trans r1 r2 r3 :
  same_marker_state r1 r2 -> same_marker_state r2 r3 -> same_marker_state r1 r3.
Proof. intros [a1 a2] [b1 b2]. split; [congruence | tauto]. Qed.

Lemma invoke_keeps_marker_state c w :
  match c with call_set_marker _ _ _ _ _ _ => False | _ => True end ->
  same_marker_state (self w) (self (invoke c w).1).
Proof.
  intros Hc. destruct c; cbn [invoke]; try contradiction.
  - destruct w as [[] ? ?]. unfold set_title. crunch; marker_state_goal.
  - destruct w as [[] ? ?]. unfold set_footer. crunch; marker_state_goal.
  - destruct w as [[] ? ?]. unfold set_timeline, strptime. crunch; marker_state_goal.
  - destruct (draw_calls_prefix w) as (p & made & -> & _). destruct w as [[] ? ?].
    marker_state_goal.
  - destruct w as [[] ? ?]. marker_state_goal.
  - destruct (print_roadmap_prints print_area w) as (lines & r & ->).
    marker_state_goal.
Qed.

Lemma with_add_group_keeps_marker_state t f s c fc a body w :
  (forall i w1, same_marker_state (self w1) (self (body i w1).1)) ->
  same_marker_state (self w) (self (with_add_group t f s c fc a body w).1).
Proof.
  intros Hbody. unfold with_add_group. rewrite add_group_enter_eq.
  match goal with |- context [body ?i ?w1] =>
    pose proof (Hbody i w1) as Hb; destruct (body i w1) as [w2 raised] end.
  cbn [fst] in Hb. rewrite add_group_exit_eq.
  eapply same_marker_state_trans; [|eapply same_marker_state_trans; [exact Hb|]].
  - destruct w as [[] ? ?]. marker_state_goal.
  - destruct (groups (self w2) !! _); [|marker_state_goal]. cbn.
    destruct (Group_set_draw_position _ _ _) as [e|[g' p']]; destruct w2 as [[] ? ?];
      marker_state_goal.
Qed.

Lemma run_without_set_marker p :
  forall w, no_set_marker p -> same_marker_state (self w) (self (run p w).1).
Proof.
  induction p as [|e|c k IHk|i f k IHk|t f s c fc a body IHbody k IHk]; intros w Hp;
    cbn [run no_set_marker] in *.
  - apply same_marker_state_refl.
  - apply same_marker_state_refl.
  - destruct Hp as [Hc Hk]. pose proof (invoke_keeps_marker_state c w Hc) as Hs.
    destruct (invoke c w) as [w' [e|[]]]; [exact Hs|].
    eapply same_marker_state_trans; [exact Hs | apply IHk, Hk].
  - eapply same_marker_state_trans; [|apply IHk, Hp].
    destruct w as [[] ? ?]. unfold populate. marker_state_goal.
  - destruct Hp as [Hb Hk].
    pose proof (with_add_group_keeps_marker_state t f s c fc a (fun g => run (body g)) w
                  (fun i w1 => IHbody i w1 (Hb i))) as Hw.
    destruct (with_add_group _ _ _ _ _ _ _ w) as [w' [e|]]; [exact Hw|].
    eapply same_marker_state_trans; [exact Hw | apply IHk, Hk].
Qed.

End MarkerFlag.

(** ** The scope of add_group *)

Section AddGroup.
Context `{!Collaborators} `{!Interpreter}.

Lemma add_group_scope text font font_size font_colour fill_colour text_alignment
    (body : nat -> program) (w : World) :
  let i := length (groups (self w)) in
  let group := new_Group text font font_size font_colour fill_colour text_alignment in
  let entered :=
    mk_World (set_groups (groups (self w) ++ [group]) (self w)) (calls w) (stdout w) in
  let left := run (body i) entered in
  let out := with_add_group text font font_size font_colour fill_colour text_alignment
               (fun g => run (body g)) w in
  add_group_enter text font font_size font_colour fill_colour text_alignment w
    = (entered, inr i)
  /\ groups (self entered) !! i = Some group
  /\ exists populated,
       groups (self left.1) !! i = Some populated
       /\ calls out.1
          = calls left.1 ++ [Call_Group_set_draw_position i populated (timeline (self left.1))]
       /\ length (List.filter (is_layout_of i) (calls out.1))
          = S (length (List.filter (is_layout_of i) (calls w)))
       /\ match Group_set_draw_position populated (painter (self left.1))
                  (timeline (self left.1)) with
          | inr (laid_out, p) =>
              out.2 = left.2
              /\ groups (self out.1) = <[i := laid_out]> (groups (self left.1))
              /\ painter (self out.1) = p
          | inl e =>
              out.2 = Some e /\ groups (self out.1) = groups (self left.1)
          end.
Proof.
  intros i group entered left out.
  split; [reflexivity|].
  split; [unfold entered; cbn; apply list_lookup_middle; reflexivity|].
  pose proof (run_evolves (body i) entered) as Hev. fold left in Hev.
  assert (Hlen : (i < length (groups (self left.1)))%nat).
  { pose proof (ev_groups _ _ Hev) as Hg. unfold entered in Hg; cbn in Hg.
    rewrite length_app in Hg. cbn in Hg. fold i in Hg. lia. }
  destruct (lookup_lt_is_Some_2 _ _ Hlen) as [populated Hpop].
  exists populated. split; [exact Hpop|].
  assert (Hlay : List.filter (is_layout_of i) (calls left.1)
                 = List.filter (is_layout_of i) (calls w)).
  { apply (ev_layouts _ _ Hev). unfold entered; cbn. rewrite length_app. cbn. fold i. lia. }
  unfold out, with_add_group. rewrite add_group_enter_eq. fold i group entered left.
  destruct left as [w2 raised] eqn:Hleft. cbn [fst snd] in *.
  rewrite add_group_exit_eq, Hpop. cbn.
  destruct (Group_set_draw_position populated (painter (self w2)) (timeline (self w2)))
    as [e|[laid_out p]]; cbn.
  - repeat split. rewrite List.filter_app, length_app, Hlay. cbn.
    rewrite Nat.eqb_refl. cbn. lia.
  - repeat split. rewrite List.filter_app, length_app, Hlay. cbn.
    rewrite Nat.eqb_refl. cbn. lia.
Qed.
End AddGroup.

(** ** The test double meets the contracts *)

Lemma test_double_draws_return : @draw_methods_return TestDouble.collaborators.
Proof. repeat split; intros; eexists; reflexivity. Defined.

Lemma test_double_layouts_return : @layout_methods_return TestDouble.collaborators.
Proof. repeat split; intros; eexists; reflexivity. Defined.

Lemma test_double_keeps_canvas : @collaborators_keep_canvas TestDouble.collaborators.
Proof.
  repeat split; cbn; intros;
    repeat match goal with
    | tl : option Timeline |- _ => destruct tl
    | E : inr _ = inr _ |- _ => inversion E; subst; clear E
    | E : inl _ = inr _ |- _ => discriminate E
    end; reflexivity.
Defined.

(** * The claims *)

Section Claims.
Context `{!Collaborators} `{!Interpreter}.

(** C1.  On a roadmap whose title, timeline, marker and footer are set, and
    with collaborators whose draw methods return, [draw] returns and makes
    exactly these draw calls: the title, the timeline, every group in the
    order of [self.groups], the marker, the footer.  On any roadmap at all,
    the draw calls made are an initial segment of that order. *)
Theorem draw_emits_in_fixed_order (w : World) (t : Title) (tl : Timeline) (m : Marker)
    (f : Footer) :
  draw_methods_return ->
  title (self w) = Some t -> timeline (self w) = Some tl ->
  marker (self w) = Some m -> footer (self w) = Some f ->
  (exists p,
     draw w = (with_painter p (logged (draw_order t tl (groups (self w)) m f) w), inr tt))
  /\ (forall w0, exists p made,
        (draw w0).1 = with_painter p (logged made w0)
        /\ made `prefix_of` reachable_draw_order (self w0)).
Proof.
  intros Hret Ht Htl Hm Hf. split.
  - apply draw_complete; assumption.
  - intros w0. destruct (draw_calls_prefix w0) as (p & made & Hw & Hpre & _). eauto.
Qed.

(** C2.  [with roadmap.add_group(..) as group: body]: the new group is
    appended to [self.groups] before the body runs, and the body receives
    that very group; when the body is left, returning or raising, the group
    as the body left it is laid out against the timeline of that moment, by
    the one call of [Group.set_draw_position] that the whole statement makes
    for this group; the body's exception, if any, goes on to the caller
    unless the layout itself raises. *)
Theorem add_group_appends_then_lays_out_once
    (text font : string) (font_size : Z) (font_colour fill_colour text_alignment : string)
    (body : nat -> program) (w : World) :
  let i := length (groups (self w)) in
  let group := new_Group text font font_size font_colour fill_colour text_alignment in
  let entered :=
    mk_World (set_groups (groups (self w) ++ [group]) (self w)) (calls w) (stdout w) in
  let left := run (body i) entered in
  let out := with_add_group text font font_size font_colour fill_colour text_alignment
               (fun g => run (body g)) w in
  add_group_enter text font font_size font_colour fill_colour text_alignment w
    = (entered, inr i)
  /\ groups (self entered) !! i = Some group
  /\ exists populated,
       groups (self left.1) !! i = Some populated
       /\ calls out.1
          = calls left.1 ++ [Call_Group_set_draw_position i populated (timeline (self left.1))]
       /\ length (List.filter (is_layout_of i) (calls out.1))
          = S (length (List.filter (is_layout_of i) (calls w)))
       /\ match Group_set_draw_position populated (painter (self left.1))
                  (timeline (self left.1)) with
          | inr (laid_out, p) =>
              out.2 = left.2
              /\ groups (self out.1) = <[i := laid_out]> (groups (self left.1))
              /\ painter (self out.1) = p
          | inl e =>
              out.2 = Some e /\ groups (self out.1) = groups (self left.1)
          end.
Proof. apply add_group_scope. Qed.

(** C3.  With layout methods that return and a start string that parses:
    [set_timeline] lays out the timeline and then, when the marker is
    enabled, positions the marker label against the laid-out timeline;
    [set_footer] positions the marker line, when the marker is enabled, and
    only then lays out the footer.  When the marker is not enabled neither
    method calls the marker or changes it.  In a program that configures the
    marker, sets title and timeline, adds any number of groups and sets the
    footer, the label is therefore positioned before the first group is laid
    out and the line after the last one. *)
Theorem marker_layout_in_two_phases (w : World) (mode : TimelineMode) (s : string)
    (d : datetime) (number_of_items : Z) (font : string) (font_size : Z)
    (font_colour fill_colour text : string) :
  layout_methods_return ->
  strptime_ymd s = inr d ->
  (show_current_date_marker (self w) = true -> is_Some (marker (self w))) ->
  let timeline_set :=
    set_timeline mode (Some (PyStr s)) number_of_items font font_size font_colour
                 fill_colour w in
  let footer_set := set_footer text font font_size font_colour w in
  exists tl',
    timeline_set.2 = inr tt
    /\ timeline (self timeline_set.1) = Some tl'
    /\ calls timeline_set.1
       = calls w
         ++ [Call_Timeline_set_draw_position
               (new_Timeline mode d number_of_items font font_size font_colour fill_colour)]
         ++ marker_phase (self w) (fun m => Call_Marker_set_label_draw_position m tl')
    /\ footer_set.2 = inr tt
    /\ calls footer_set.1
       = calls w
         ++ marker_phase (self w) Call_Marker_set_line_draw_position
         ++ [Call_Footer_set_draw_position
               (Footer_set_text text (new_Footer text font font_size font_colour))
               (last_y_pos (self w))]
    /\ (show_current_date_marker (self w) = false ->
        marker_phase (self w) Call_Marker_set_line_draw_position = []
        /\ marker (self timeline_set.1) = marker (self w)
        /\ marker (self footer_set.1) = marker (self w))
    /\ (forall wd ht b title_text blocks footer_text,
        exists w',
          run (phased title_text s number_of_items blocks footer_text)
              (new_Roadmap wd ht b) = (w', None)
          /\ call_name <$> calls w'
             = ["Painter"; "Painter.set_background_colour"; "Title.set_draw_position";
                "Timeline.set_draw_position"; "Marker.set_label_draw_position"]
               ++ replicate (length blocks) "Group.set_draw_position"
               ++ ["Marker.set_line_draw_position"; "Footer.set_draw_position"]).
Proof.
  intros Hret Hs Hm timeline_set footer_set.
  destruct (set_timeline_calls mode s d number_of_items font font_size font_colour
              fill_colour w Hret Hs Hm) as (tl' & Hr1 & Htl & Hc1 & Hm1).
  destruct (set_footer_calls text font font_size font_colour w Hret Hm) as (Hr2 & Hc2 & Hm2).
  exists tl'.
  split; [exact Hr1|]. split; [exact Htl|]. split; [exact Hc1|].
  split; [exact Hr2|]. split; [exact Hc2|].
  split.
  - intros Hoff. split; [unfold marker_phase; rewrite Hoff; reflexivity|].
    split; [apply Hm1, Hoff | apply Hm2, Hoff].
  - intros wd ht b title_text blocks footer_text.
    apply (phased_layout_order wd ht b title_text s d); assumption.
Qed.

(** C4.  With draw methods that return: [draw] on a roadmap whose title,
    timeline or footer was never set raises [AttributeError], and so does
    [set_footer] on a roadmap whose marker is enabled while no marker object
    exists; [set_footer] then changes nothing.  The exception leaves the
    method and ends the caller's program. *)
Theorem sequencing_faults_propagate (w : World) (text font : string) (font_size : Z)
    (font_colour : string) (k : program) :
  draw_methods_return ->
  (title (self w) = None \/ timeline (self w) = None \/ footer (self w) = None ->
   (draw w).2 = inl AttributeError
   /\ (run (Do call_draw k) w).2 = Some AttributeError)
  /\ (show_current_date_marker (self w) = true -> marker (self w) = None ->
      set_footer text font font_size font_colour w = (w, inl AttributeError)
      /\ run (Do (call_set_footer text font font_size font_colour) k) w
         = (w, Some AttributeError)).
Proof.
  intros Hret. split.
  - intros Hmiss. pose proof (draw_component_missing w Hret Hmiss) as Hd.
    split; [exact Hd|]. cbn [run invoke].
    destruct (draw w) as [w' r]. cbn in Hd. subst r. reflexivity.
  - intros Hflag Hm.
    pose proof (set_footer_marker_missing text font font_size font_colour w Hflag Hm) as Hf.
    split; [exact Hf|]. cbn [run invoke]. rewrite Hf. reflexivity.
Qed.

(** C5.  [set_timeline] parses a [str] start with the format [%Y-%m-%d]
    before it does anything else.  A date written as YYYY-MM-DD parses to
    that date at midnight, under every Unicode database.  When the parse fails it fails with [ValueError],
    which [set_timeline] raises at once: no timeline is built, no
    collaborator is called and the roadmap is as it was.  When the parse
    succeeds the timeline is built from the parsed date. *)
Theorem set_timeline_parses_start_first (mode : TimelineMode) (s : string)
    (number_of_items : Z) (font : string) (font_size : Z)
    (font_colour fill_colour : string) (w : World) :
  (forall y m d, valid_date y m d = true ->
                 strptime_ymd (iso_date y m d) = inr (midnight y m d))
  /\ match strptime_ymd s with
     | inl e =>
         e = ValueError
         /\ set_timeline mode (Some (PyStr s)) number_of_items font font_size font_colour
                         fill_colour w
            = (w, inl ValueError)
     | inr d =>
         exists rest,
           calls (set_timeline mode (Some (PyStr s)) number_of_items font font_size
                               font_colour fill_colour w).1
           = calls w
             ++ Call_Timeline_set_draw_position
                  (new_Timeline mode d number_of_items font font_size font_colour
                                fill_colour) :: rest
     end.
Proof.
  split; [apply strptime_ymd_iso_date|].
  destruct (strptime_ymd s) as [e|d] eqn:Hs.
  - pose proof (strptime_ymd_error s e Hs) as ->. split; [reflexivity|].
    apply set_timeline_malformed, Hs.
  - apply set_timeline_constructs, Hs.
Qed.

(** C6 (amended).  The constructor stores the flag it is given, [False] by
    default, and creates no marker object; [set_marker] creates the marker
    object and sets the flag; a program that never calls [set_marker] leaves
    the flag as it was and neither creates nor drops the marker object; so on
    a roadmap constructed with the flag off, after any program, the flag is
    on exactly when a marker object exists. *)
Theorem marker_flag_follows_set_marker :
  (forall wd ht b,
     show_current_date_marker (self (new_Roadmap wd ht b)) = b
     /\ marker (self (new_Roadmap wd ht b)) = None)
  /\ show_current_date_marker (self default_Roadmap) = false
  /\ (forall label_text_font label_text_colour label_text_size line_colour line_width
             line_style w,
        let w' := (set_marker label_text_font label_text_colour label_text_size
                              line_colour line_width line_style w).1 in
        show_current_date_marker (self w') = true
        /\ marker (self w')
           = Some (new_Marker label_text_font label_text_size label_text_colour
                              line_colour line_width line_style))
  /\ (forall p w, no_set_marker p -> same_marker_state (self w) (self (run p w).1))
  /\ (forall p wd ht, marker_in_sync (self (run p (new_Roadmap wd ht false)).1)).
Proof.
  split; [intros; split; reflexivity|].
  split; [reflexivity|].
  split; [intros; split; reflexivity|].
  split; [intros p w Hp; apply run_without_set_marker, Hp|].
  intros p wd ht. apply (ev_sync _ _ (run_evolves p (new_Roadmap wd ht false))).
  unfold marker_in_sync; cbn. split; [discriminate | intros [? ?]; discriminate].
Qed.

(** C7 (amended).  On a roadmap whose title, timeline and footer are set
    and which has no group, the dump of area ["all"] returns and prints
    exactly: the title line, the header line [Timeline:], one line per
    timeline item, and the footer line; there is no group, task or milestone
    line. *)
Theorem dump_of_empty_roadmap (w : World) (t : Title) (tl : Timeline) (f : Footer) :
  title (self w) = Some t -> timeline (self w) = Some tl -> footer (self w) = Some f ->
  groups (self w) = [] ->
  print_roadmap "all" w
  = (printed ([title_line t] ++ ["Timeline:"]
              ++ (timeline_item_line <$> Timeline_timeline_items tl)
              ++ [footer_line f]) w,
     inr tt).
Proof.
  intros Ht Htl Hf Hg. rewrite (print_roadmap_all w t tl f Ht Htl Hf), Hg.
  reflexivity.
Qed.

(** C8.  With collaborators that leave the canvas of the painter alone:
    construction builds the painter with the given width and height and sets
    the background to white, and after any program the canvas, the width and
    the height of the roadmap are what construction made them; the painter is
    built and the background colour chosen in [__post_init__] only.  From
    any later state on, no program changes the canvas either. *)
Theorem canvas_unchanged_after_construction (wd ht : Z) (b : bool) (p : program) :
  collaborators_keep_canvas ->
  let w0 := new_Roadmap wd ht b in
  let w := (run p w0).1 in
  canvas (painter (self w0)) = (wd, ht, Some "White")
  /\ canvas (painter (self w)) = (wd, ht, Some "White")
  /\ width (self w) = wd /\ height (self w) = ht
  /\ List.filter is_canvas_setup (calls w)
     = [Call_Painter wd ht "test.png"; Call_set_background_colour "White"]
  /\ (forall q w1, canvas (painter (self (run q w1).1)) = canvas (painter (self w1))).
Proof.
  intros K w0 w. pose proof (run_evolves p w0) as Hev. fold w in Hev.
  split; [reflexivity|].
  split; [rewrite (ev_canvas _ _ Hev K); reflexivity|].
  split; [rewrite (ev_width _ _ Hev); reflexivity|].
  split; [rewrite (ev_height _ _ Hev); reflexivity|].
  split; [rewrite (ev_canvas_setup _ _ Hev); reflexivity|].
  intros q w1. apply (ev_canvas _ _ (run_evolves q w1) K).
Qed.

(** C9.  With draw methods that return: on a roadmap whose title, timeline
    and footer are set but on which [set_marker] was never called, [draw]
    draws the title, the timeline and every group, and then raises
    [AttributeError] at the marker; the footer is not drawn. *)
Theorem draw_without_marker_raises (w : World) (t : Title) (tl : Timeline) (f : Footer) :
  draw_methods_return ->
  title (self w) = Some t -> timeline (self w) = Some tl -> footer (self w) = Some f ->
  marker (self w) = None ->
  exists p,
    draw w
    = (with_painter p
         (logged ([Call_Title_draw t; Call_Timeline_draw tl]
                  ++ group_draw_calls 0 (groups (self w))) w),
       inl AttributeError).
Proof.
  intros Hret Ht Htl _ Hm. apply draw_marker_absent; assumption.
Qed.

(** C10.  The default of [start] is a [datetime], fixed when the method is
    defined; [set_timeline] called without [start] raises [TypeError] before
    it changes anything; and a call of [set_timeline] that returns was
    given a [str] as [start]. *)
Theorem set_timeline_without_start_raises (mode : TimelineMode) (number_of_items : Z)
    (font : string) (font_size : Z) (font_colour fill_colour : string) (w : World) :
  default_start
  = PyDate (midnight (year today_at_definition) (month today_at_definition)
                     (day today_at_definition))
  /\ set_timeline mode None number_of_items font font_size font_colour fill_colour w
     = (w, inl TypeError)
  /\ (forall start w',
        set_timeline mode start number_of_items font font_size font_colour fill_colour w
        = (w', inr tt) ->
        exists s, start = Some (PyStr s)).
Proof.
  split; [reflexivity|]. split.
  - apply set_timeline_not_str. discriminate.
  - intros start w' Hok. destruct start as [[s| | |]|]; eauto;
      rewrite set_timeline_not_str in Hok by discriminate; discriminate.
Qed.

End Claims.

(** * Witnesses and counterexamples *)

Lemma draw_emits_in_fixed_order_witness :
  exists t tl m f,
    title (self TestDouble.complete_roadmap) = Some t
    /\ timeline (self TestDouble.complete_roadmap) = Some tl
    /\ marker (self TestDouble.complete_roadmap) = Some m
    /\ footer (self TestDouble.complete_roadmap) = Some f
    /\ exists p,
         @draw TestDouble.collaborators TestDouble.complete_roadmap
         = (with_painter p
              (logged (draw_order t tl (groups (self TestDouble.complete_roadmap)) m f)
                      TestDouble.complete_roadmap),
            inr tt).
Proof.
  do 4 eexists. do 4 (split; [reflexivity|]).
  apply (@draw_emits_in_fixed_order TestDouble.collaborators TestDouble.complete_roadmap);
    [exact test_double_draws_return | reflexivity ..].
Defined.

(** The draw calls of the complete roadmap, by name. *)
Example draw_complete_roadmap_names :
  call_name <$> drop (length (calls TestDouble.complete_roadmap))
                     (calls (@draw TestDouble.collaborators TestDouble.complete_roadmap).1)
  = ["Title.draw"; "Timeline.draw"; "Group.draw"; "Group.draw"; "Marker.draw";
     "Footer.draw"].
Proof. vm_compute. reflexivity. Qed.

(** A block that raises after adding one task: the group is in the list,
    laid out with that task, and the caller's exception comes out. *)
Example interrupted_block_is_laid_out :
  let out := @run TestDouble.collaborators TestDouble.interpreter TestDouble.interrupted
                  default_Roadmap in
  out.2 = Some (CallerError "boom")
  /\ call_name <$> calls out.1
     = ["Painter"; "Painter.set_background_colour"; "Timeline.set_draw_position";
        "Group.set_draw_position"]
  /\ (fun g => (Group_text g, length (Group_tasks g), Group_box_height g))
       <$> groups (self out.1)
     = [("Core", 1%nat, Int 40)].
Proof. vm_compute. repeat split; reflexivity. Qed.

Lemma marker_layout_in_two_phases_witness :
  @layout_methods_return TestDouble.collaborators
  /\ @strptime_ymd TestDouble.interpreter "2024-01-01" = inr (midnight 2024 1 1)
  /\ (show_current_date_marker (self TestDouble.marked_roadmap) = true ->
      is_Some (marker (self TestDouble.marked_roadmap)))
  /\ (@set_timeline TestDouble.collaborators TestDouble.interpreter MONTHLY
        (Some (PyStr "2024-01-01")) 3 "Arial" 10 "Black" "lightgrey"
        TestDouble.marked_roadmap).2 = inr tt
  /\ (@set_footer TestDouble.collaborators "The end" "Arial" 18 "Black"
        TestDouble.marked_roadmap).2 = inr tt.
Proof.
  assert (Hsome : show_current_date_marker (self TestDouble.marked_roadmap) = true ->
                  is_Some (marker (self TestDouble.marked_roadmap)))
    by (intros _; eexists; reflexivity).
  split; [exact test_double_layouts_return|].
  split; [vm_compute; reflexivity|].
  split; [exact Hsome|].
  destruct (@marker_layout_in_two_phases TestDouble.collaborators TestDouble.interpreter
              TestDouble.marked_roadmap MONTHLY "2024-01-01" (midnight 2024 1 1) 3
              "Arial" 10 "Black" "lightgrey" "The end"
              test_double_layouts_return eq_refl Hsome)
    as (tl' & Hr1 & _ & _ & Hr2 & _).
  split; [exact Hr1|]. exact Hr2.
Defined.

(** The layout calls of the complete roadmap, by name: the marker label
    comes before the groups, the marker line after them. *)
Example planned_layout_names :
  call_name <$> calls TestDouble.complete_roadmap
  = ["Painter"; "Painter.set_background_colour"; "Title.set_draw_position";
     "Timeline.set_draw_position"; "Marker.set_label_draw_position";
     "Group.set_draw_position"; "Group.set_draw_position";
     "Marker.set_line_draw_position"; "Footer.set_draw_position"].
Proof. vm_compute. reflexivity. Qed.

Lemma sequencing_faults_propagate_witness :
  @draw_methods_return TestDouble.collaborators
  /\ (title (self (new_Roadmap 1200 600 true)) = None
      \/ timeline (self (new_Roadmap 1200 600 true)) = None
      \/ footer (self (new_Roadmap 1200 600 true)) = None)
  /\ show_current_date_marker (self (new_Roadmap 1200 600 true)) = true
  /\ marker (self (new_Roadmap 1200 600 true)) = None
  /\ (@draw TestDouble.collaborators (new_Roadmap 1200 600 true)).2 = inl AttributeError
  /\ @set_footer TestDouble.collaborators "The end" "Arial" 18 "Black"
       (new_Roadmap 1200 600 true)
     = (new_Roadmap 1200 600 true, inl AttributeError).
Proof.
  destruct (@sequencing_faults_propagate TestDouble.collaborators TestDouble.interpreter
              (new_Roadmap 1200 600 true) "The end" "Arial" 18 "Black" Return
              test_double_draws_return) as [Hdraw Hfooter].
  split; [exact test_double_draws_return|].
  split; [left; reflexivity|].
  split; [reflexivity|]. split; [reflexivity|].
  split; [exact (proj1 (Hdraw (or_introl eq_refl)))|].
  exact (proj1 (Hfooter eq_refl eq_refl)).
Defined.

Lemma set_timeline_parses_start_first_witness :
  valid_date 2024 2 29 = true
  /\ @strptime_ymd TestDouble.interpreter (iso_date 2024 2 29) = inr (midnight 2024 2 29)
  /\ @strptime_ymd TestDouble.interpreter "2024-13-01" = inl ValueError
  /\ @set_timeline TestDouble.collaborators TestDouble.interpreter MONTHLY
       (Some (PyStr "2024-13-01")) 12 "Arial" 10 "Black" "lightgrey" default_Roadmap
     = (default_Roadmap, inl ValueError)
  /\ @strptime_ymd TestDouble.interpreter "２０２４-01-15" = inr (midnight 2024 1 15)
  /\ exists rest,
       calls (@set_timeline TestDouble.collaborators TestDouble.interpreter MONTHLY
                (Some (PyStr "２０２４-01-15")) 12 "Arial" 10 "Black" "lightgrey"
                default_Roadmap).1
       = calls default_Roadmap
         ++ Call_Timeline_set_draw_position
              (@new_Timeline TestDouble.collaborators MONTHLY (midnight 2024 1 15) 12
                 "Arial" 10 "Black" "lightgrey") :: rest.
Proof.
  pose proof (@set_timeline_parses_start_first TestDouble.collaborators TestDouble.interpreter
                MONTHLY "2024-13-01" 12 "Arial" 10 "Black" "lightgrey" default_Roadmap)
    as [Hiso Hbad].
  pose proof (@set_timeline_parses_start_first TestDouble.collaborators TestDouble.interpreter
                MONTHLY "２０２４-01-15" 12 "Arial" 10 "Black" "lightgrey" default_Roadmap)
    as [_ Hgood].
  split; [vm_compute; reflexivity|].
  split; [apply Hiso; vm_compute; reflexivity|].
  split; [vm_compute; reflexivity|].
  change (@strptime_ymd TestDouble.interpreter "2024-13-01")
    with (@inl exn datetime ValueError) in Hbad.
  split; [exact (proj2 Hbad)|].
  split; [vm_compute; reflexivity|].
  change (@strptime_ymd TestDouble.interpreter "２０２４-01-15")
    with (@inr exn datetime (midnight 2024 1 15)) in Hgood.
  exact Hgood.
Defined.

(** C6, the claim as stated: a roadmap can be constructed with the flag on,
    and then the flag is on while no marker object exists. *)
Lemma marker_flag_on_at_construction :
  show_current_date_marker (self (new_Roadmap 1200 600 true)) = true
  /\ marker (self (new_Roadmap 1200 600 true)) = None
  /\ ~ marker_in_sync (self (new_Roadmap 1200 600 true)).
Proof.
  split; [reflexivity|]. split; [reflexivity|].
  intros [Hsync _]. destruct (Hsync eq_refl) as [m Hm]. discriminate Hm.
Qed.

Lemma marker_flag_follows_set_marker_witness :
  no_set_marker TestDouble.unmarked
  /\ same_marker_state (self default_Roadmap)
       (self (@run TestDouble.collaborators TestDouble.interpreter TestDouble.unmarked
                   default_Roadmap).1).
Proof.
  assert (Hno : no_set_marker TestDouble.unmarked) by (simpl; intuition).
  split; [exact Hno|].
  destruct (@marker_flag_follows_set_marker TestDouble.collaborators TestDouble.interpreter)
    as (_ & _ & _ & Hkeep & _).
  exact (Hkeep TestDouble.unmarked default_Roadmap Hno).
Defined.

(** C7, the claim as stated: the dump of a roadmap without groups has a
    line that is neither the title line, nor a timeline item line, nor the
    footer line. *)
Lemma dump_prints_timeline_header :
  groups (self TestDouble.empty_roadmap) = []
  /\ exists t tl f,
       title (self TestDouble.empty_roadmap) = Some t
       /\ timeline (self TestDouble.empty_roadmap) = Some tl
       /\ footer (self TestDouble.empty_roadmap) = Some f
       /\ stdout (@print_roadmap TestDouble.collaborators "all" TestDouble.empty_roadmap).1
          <> [@title_line t]
             ++ (@timeline_item_line TestDouble.collaborators
                   <$> Timeline_timeline_items tl)
             ++ [@footer_line TestDouble.collaborators f]
       /\ nth_error
            (stdout (@print_roadmap TestDouble.collaborators "all"
                       TestDouble.empty_roadmap).1) 1
          = Some "Timeline:".
Proof.
  split; [reflexivity|]. do 3 eexists. do 3 (split; [reflexivity|]). split.
  - intros Heq. apply (f_equal length) in Heq. vm_compute in Heq. discriminate Heq.
  - vm_compute. reflexivity.
Qed.

Lemma dump_of_empty_roadmap_witness :
  exists t tl f,
    title (self TestDouble.empty_roadmap) = Some t
    /\ timeline (self TestDouble.empty_roadmap) = Some tl
    /\ footer (self TestDouble.empty_roadmap) = Some f
    /\ groups (self TestDouble.empty_roadmap) = []
    /\ @print_roadmap TestDouble.collaborators "all" TestDouble.empty_roadmap
       = (printed ([title_line t] ++ ["Timeline:"]
                   ++ (@timeline_item_line TestDouble.collaborators
                         <$> Timeline_timeline_items tl)
                   ++ [@footer_line TestDouble.collaborators f])
                  TestDouble.empty_roadmap,
          inr tt).
Proof.
  do 3 eexists. do 4 (split; [reflexivity|]).
  apply (@dump_of_empty_roadmap TestDouble.collaborators TestDouble.empty_roadmap);
    reflexivity.
Defined.

(** The dump of the roadmap without groups, line by line. *)
Example dump_of_empty_roadmap_lines :
  stdout (@print_roadmap TestDouble.collaborators "all" TestDouble.empty_roadmap).1
  = ["Title=My Roadmap"; "Timeline:";
     "└────────P0, value=0, box_x=30, box_y=40, box_w=570, box_h=20, text_x=315, text_y=50";
     "└────────P1, value=1, box_x=600, box_y=40, box_w=570, box_h=20, text_x=885, text_y=50";
     "Footer: The end x=600 y=20 w=126 h=18"].
Proof. vm_compute. reflexivity. Qed.

Lemma canvas_unchanged_after_construction_witness :
  @collaborators_keep_canvas TestDouble.collaborators
  /\ canvas (painter (self (@run TestDouble.collaborators TestDouble.interpreter
                              TestDouble.planned (new_Roadmap 1200 600 false)).1))
     = (1200, 600, Some "White").
Proof.
  split; [exact test_double_keeps_canvas|].
  exact (proj1 (proj2 (@canvas_unchanged_after_construction TestDouble.collaborators
                         TestDouble.interpreter 1200 600 false TestDouble.planned
                         test_double_keeps_canvas))).
Defined.

Lemma draw_without_marker_raises_witness :
  exists t tl f,
    @draw_methods_return TestDouble.collaborators
    /\ title (self TestDouble.unmarked_roadmap) = Some t
    /\ timeline (self TestDouble.unmarked_roadmap) = Some tl
    /\ footer (self TestDouble.unmarked_roadmap) = Some f
    /\ marker (self TestDouble.unmarked_roadmap) = None
    /\ exists p,
         @draw TestDouble.collaborators TestDouble.unmarked_roadmap
         = (with_painter p
              (logged ([Call_Title_draw t; Call_Timeline_draw tl]
                       ++ group_draw_calls 0 (groups (self TestDouble.unmarked_roadmap)))
                      TestDouble.unmarked_roadmap),
            inl AttributeError).
Proof.
  do 3 eexists. split; [exact test_double_draws_return|].
  do 4 (split; [reflexivity|]).
  eapply (@draw_without_marker_raises TestDouble.collaborators TestDouble.unmarked_roadmap);
    [exact test_double_draws_return | reflexivity ..].
Defined.

(** Every phase but [set_marker], then [draw]: the program ends in
    [AttributeError] after the group was drawn. *)
Example draw_after_unmarked_phases :
  let out := @run TestDouble.collaborators TestDouble.interpreter (Do call_draw Return)
                  TestDouble.unmarked_roadmap in
  out.2 = Some AttributeError
  /\ call_name <$> drop (length (calls TestDouble.unmarked_roadmap)) (calls out.1)
     = ["Title.draw"; "Timeline.draw"; "Group.draw"].
Proof. vm_compute. split; reflexivity. Qed.

Lemma set_timeline_without_start_raises_witness :
  exists w',
    @set_timeline TestDouble.collaborators TestDouble.interpreter MONTHLY
      (Some (PyStr "2024-01-01")) 12 "Arial" 10 "Black" "lightgrey" default_Roadmap
    = (w', inr tt)
    /\ exists s, Some (PyStr "2024-01-01") = Some (PyStr s).
Proof.
  eexists. split; [vm_compute; reflexivity|].
  destruct (@set_timeline_without_start_raises TestDouble.collaborators TestDouble.interpreter
              MONTHLY 12 "Arial" 10 "Black" "lightgrey" default_Roadmap)
    as (_ & _ & Hstr).
  eapply Hstr. vm_compute. reflexivity.
Defined.

(** * Further properties of roadmap.py *)

(** ** The dump, area by area *)

Lemma printed_app (l1 l2 : list string) (w : World) :
  printed l2 (printed l1 w) = printed (l1 ++ l2) w.
Proof. unfold printed; cbn. rewrite <- app_assoc. reflexivity. Qed.

Section DumpAreas.
Context `{!Collaborators}.

(** X4.  A [print_area] other than the five known ones prints nothing,
    raises nothing and leaves the world as it is, on any roadmap. *)
Lemma print_roadmap_unknown_area (print_area : string) (w : World) :
  print_area <> "all" -> print_area <> "title" -> print_area <> "timeline" ->
  print_area <> "groups" -> print_area <> "footer" ->
  print_roadmap print_area w = (w, inr tt).
Proof.
  intros Ha Ht Htl Hg Hf. unfold print_roadmap.
  rewrite (proj2 (String.eqb_neq _ _) Ha), (proj2 (String.eqb_neq _ _) Ht),
    (proj2 (String.eqb_neq _ _) Htl), (proj2 (String.eqb_neq _ _) Hg),
    (proj2 (String.eqb_neq _ _) Hf).
  destruct w as [[] ? ?]. reflexivity.
Qed.

(** X5.  The dump of area ["groups"] never raises, whatever was set on the
    roadmap: it prints the lines of the groups, in the order of the list. *)
Lemma print_roadmap_groups (w : World) :
  print_roadmap "groups" w
  = (printed (concat (group_lines <$> groups (self w))) w, inr tt).
Proof.
  destruct w as [[wd ht fl t tl f m pt gs ly md] cs out].
  unfold print_roadmap, mbind, M_bind, mret, M_ret, get. cbn -[for_each].
  rewrite (for_each_printed _ group_lines) by apply print_group_eq.
  reflexivity.
Qed.

(** X6.  The dump of area ["all"] in every state: without a title nothing
    is printed before [AttributeError]; without a timeline the title line
    and the header [Timeline:] are; without a footer everything but the
    footer line is; otherwise all lines are printed and the dump returns. *)
Lemma print_roadmap_all_cases (w : World) :
  print_roadmap "all" w
  = match title (self w), timeline (self w), footer (self w) with
    | None, _, _ => (w, inl AttributeError)
    | Some t, None, _ => (printed [title_line t; "Timeline:"] w, inl AttributeError)
    | Some t, Some tl, None =>
        (printed ([title_line t] ++ timeline_lines tl
                  ++ concat (group_lines <$> groups (self w))) w,
         inl AttributeError)
    | Some t, Some tl, Some f =>
        (printed ([title_line t] ++ timeline_lines tl
                  ++ concat (group_lines <$> groups (self w)) ++ [footer_line f]) w,
         inr tt)
    end.
Proof.
  destruct w as [[wd ht fl t tl f m pt gs ly md] cs out]. cbn [self title timeline footer groups].
  destruct t as [t|]; [|reflexivity].
  destruct tl as [tl|];
    [|unfold print_roadmap, printed; unfold_monad; cbn; rewrite <- app_assoc; reflexivity].
  destruct f as [f|]; [apply print_roadmap_all; reflexivity|].
  unfold print_roadmap, mbind, M_bind, mret, M_ret, get, deref.
  unfold print at 1 2. cbn -[for_each print].
  rewrite for_each_print. cbn -[for_each print].
  rewrite (for_each_printed _ group_lines) by apply print_group_eq.
  unfold print, printed, timeline_lines; cbn. repeat rewrite <- app_assoc. reflexivity.
Qed.

Lemma print_roadmap_title (w : World) :
  print_roadmap "title" w
  = match title (self w) with
    | Some t => (printed [title_line t] w, inr tt)
    | None => (w, inl AttributeError)
    end.
Proof. destruct w as [[wd ht fl [t|] tl f m pt gs ly md] cs out]; reflexivity. Qed.

Lemma print_roadmap_timeline (w : World) :
  print_roadmap "timeline" w
  = match timeline (self w) with
    | Some tl => (printed (timeline_lines tl) w, inr tt)
    | None => (printed ["Timeline:"] w, inl AttributeError)
    end.
Proof.
  destruct w as [[wd ht fl t [tl|] f m pt gs ly md] cs out]; [|reflexivity].
  unfold print_roadmap, mbind, M_bind, mret, M_ret, get, deref.
  cbn -[for_each print]. unfold print at 1. cbn -[for_each print].
  rewrite for_each_print. unfold printed, timeline_lines; cbn.
  rewrite <- app_assoc. reflexivity.
Qed.

Lemma print_roadmap_footer (w : World) :
  print_roadmap "footer" w
  = match footer (self w) with
    | Some f => (printed [footer_line f] w, inr tt)
    | None => (w, inl AttributeError)
    end.
Proof. destruct w as [[wd ht fl t tl [f|] m pt gs ly md] cs out]; reflexivity. Qed.

(** X7.  The dump of area ["all"] is the four single-area dumps in
    sequence: title, timeline, groups, footer; in every state, the faulting
    ones included. *)
Lemma print_roadmap_all_composes (w : World) :
  print_roadmap "all" w
  = (print_roadmap "title";; print_roadmap "timeline";; print_roadmap "groups";;
     print_roadmap "footer") w.
Proof.
  rewrite print_roadmap_all_cases. unfold mbind, M_bind.
  rewrite print_roadmap_title.
  destruct (title (self w)) as [t|]; [|reflexivity].
  rewrite print_roadmap_timeline. cbn [self printed].
  destruct (timeline (self w)) as [tl|]; [|rewrite printed_app; reflexivity].
  rewrite print_roadmap_groups, print_roadmap_footer. cbn [self printed].
  destruct (footer (self w)) as [f|]; rewrite !printed_app, <- ?app_assoc; reflexivity.
Qed.

(** X8.  The dump changes neither the roadmap nor the call log, and only
    adds to what was printed before, whether it returns or raises. *)
Lemma print_roadmap_read_only (print_area : string) (w : World) :
  self (print_roadmap print_area w).1 = self w
  /\ calls (print_roadmap print_area w).1 = calls w
  /\ stdout w `prefix_of` stdout (print_roadmap print_area w).1.
Proof.
  destruct (print_roadmap_prints print_area w) as (lines & r & ->).
  repeat split. exists lines. reflexivity.
Qed.
(** The dump shows two levels of tasks: what a parallel task nests is not
    printed. *)
Lemma parallel_task_lines_two_levels (t : Task) :
  parallel_task_lines (without_subtasks t) = parallel_task_lines t.
Proof. destruct t; reflexivity. Qed.

Lemma group_lines_two_levels (g : Group) : group_lines (two_levels g) = group_lines g.
Proof.
  unfold group_lines, two_levels; cbn. f_equal. f_equal.
  rewrite <- list_fmap_compose. apply list_fmap_ext. intros _ t _.
  unfold task_lines; cbn. do 3 f_equal.
  rewrite <- list_fmap_compose. apply list_fmap_ext. intros _ pt _.
  apply parallel_task_lines_two_levels.
Qed.

(** X9.  The dump shows two levels of tasks: removing what the parallel
    tasks nest changes no line of the dump of area ["groups"]. *)
Theorem dump_shows_two_levels_of_tasks (w : World) :
  stdout (print_roadmap "groups"
            (mk_World (set_groups (two_levels <$> groups (self w)) (self w))
                      (calls w) (stdout w))).1
  = stdout (print_roadmap "groups" w).1.
Proof.
  rewrite !print_roadmap_groups. cbn [fst stdout printed self groups set_groups].
  do 2 f_equal. rewrite <- list_fmap_compose. apply list_fmap_ext. intros _ g _.
  apply group_lines_two_levels.
Qed.

End DumpAreas.

(** ** Invariants of whole programs *)

(** Case analysis on whether a position is in the list and whether its
    block is open. *)
Ltac open_cases :=
  repeat case_bool_decide; cbn; try reflexivity;
  rewrite ?elem_of_cons in *; try (exfalso; intuition lia).

Section ProgramInvariants.
Context `{!Collaborators} `{!Interpreter}.

(** Induction over programs, one public operation at a time. *)
Lemma run_preserves (I : World -> Prop) :
  (forall c w, I w -> I (invoke c w).1) ->
  (forall i f w, I w -> I (populate i f w)) ->
  (forall t f s c fc a w, I w -> I (add_group_enter t f s c fc a w).1) ->
  (forall i w, I w -> I (add_group_exit i w).1) ->
  forall p w, I w -> I (run p w).1.
Proof.
  intros Hinvoke Hpop Henter Hexit.
  induction p as [|e|c k IHk|i f k IHk|t f s c fc a body IHbody k IHk]; intros w Hw;
    cbn [run].
  - exact Hw.
  - exact Hw.
  - specialize (Hinvoke c w Hw). destruct (invoke c w) as [w' [e|[]]]; [exact Hinvoke|].
    apply IHk, Hinvoke.
  - apply IHk, Hpop, Hw.
  - unfold with_add_group. specialize (Henter t f s c fc a w Hw).
    destruct (add_group_enter t f s c fc a w) as [w1 [e|g]]; [exact Henter|].
    cbn [fst] in Henter. specialize (IHbody g w1 Henter).
    destruct (run (body g) w1) as [w2 raised]. cbn [fst] in IHbody.
    specialize (Hexit g w2 IHbody).
    destruct (add_group_exit g w2) as [w3 [e'|[]]]; cbn [fst] in Hexit; [exact Hexit|].
    destruct raised as [e|]; [exact Hexit|]. apply IHk, Hexit.
Qed.

Lemma draw_calls_are_draws (r : Roadmap) (made : list Call) (y : Z) :
  made `prefix_of` reachable_draw_order r -> Forall (footer_call_at y) made.
Proof.
  intros [rest Hmade].
  assert (Hall : Forall (footer_call_at y) (reachable_draw_order r)).
  { unfold reachable_draw_order, group_draw_calls. repeat rewrite Forall_app.
    repeat split;
      try (destruct (title r), (timeline r), (marker r), (footer r); cbn;
           repeat constructor; fail).
    apply Forall_fmap, Forall_forall. intros [i g] _. exact I. }
  rewrite Hmade, Forall_app in Hall. apply Hall.
Qed.

Lemma invoke_keeps_private_attributes (c : api) (w : World) :
  private_attributes_initial w -> private_attributes_initial (invoke c w).1.
Proof.
  intros (Hy & Hm & Hcalls). unfold private_attributes_initial.
  destruct c; cbn [invoke].
  - destruct w as [[] ? ?]. unfold set_marker. crunch. repeat split; assumption.
  - destruct w as [[] ? ?]. unfold set_title.
    crunch; repeat split; try assumption; rewrite ?Forall_app; repeat split;
      try assumption; repeat constructor.
  - destruct w as [[] ? ?]. cbn in Hy. subst. unfold set_footer.
    crunch; repeat split; try assumption; rewrite ?Forall_app; repeat split;
      try assumption; repeat constructor.
  - destruct w as [[] ? ?]. unfold set_timeline, strptime.
    crunch; repeat split; try assumption; rewrite ?Forall_app; repeat split;
      try assumption; repeat constructor.
  - destruct (draw_calls_prefix w) as (p & made & -> & Hpre & _).
    destruct w as [[] ? ?]. unfold_worlds. cbn in *.
    repeat split; try assumption. rewrite Forall_app. split; [assumption|].
    eapply draw_calls_are_draws, Hpre.
  - destruct w as [[] ? ?]. unfold save. crunch.
    repeat split; try assumption. rewrite Forall_app. split; [assumption|].
    repeat constructor.
  - destruct (print_roadmap_prints print_area w) as (lines & r & ->).
    repeat split; assumption.
Qed.

Lemma run_keeps_private_attributes (p : program) (w : World) :
  private_attributes_initial w -> private_attributes_initial (run p w).1.
Proof.
  apply run_preserves.
  - apply invoke_keeps_private_attributes.
  - intros i f [[] ? ?] Hw. exact Hw.
  - intros t f s c fc a [[] ? ?] Hw. exact Hw.
  - intros i w0 (Hy & Hm & Hcalls). unfold private_attributes_initial.
    rewrite add_group_exit_eq.
    destruct (groups (self w0) !! i) as [g|]; [|repeat split; assumption]. cbn.
    destruct (Group_set_draw_position _ _ _) as [e|[g' p']]; destruct w0 as [[] ? ?];
      unfold_worlds; cbn in *; repeat split; try assumption;
      rewrite Forall_app; split; try assumption; repeat constructor.
Qed.

(** X3.  Through any program on a constructed roadmap [__last_y_pos] stays
    [0] and [__mode] stays [MONTHLY]: the mode given to [set_timeline] is
    not stored in the roadmap, and every footer is laid out against [0]. *)
Theorem private_attributes_never_change (wd ht : Z) (b : bool) (p : program) :
  private_attributes_initial (run p (new_Roadmap wd ht b)).1.
Proof.
  apply run_keeps_private_attributes. repeat split. repeat constructor.
Qed.
(** A method other than [add_group] adds no group, removes none and lays
    none out. *)
Lemma invoke_keeps_groups (c : api) (w : World) :
  length (groups (self (invoke c w).1)) = length (groups (self w))
  /\ forall i, layout_count i (calls (invoke c w).1) = layout_count i (calls w).
Proof.
  unfold layout_count. destruct c; cbn [invoke].
  - destruct w as [[] ? ?]. unfold set_marker. crunch. auto.
  - destruct w as [[] ? ?]. unfold set_title.
    crunch; split; try reflexivity; intros; rewrite ?List.filter_app; cbn;
      rewrite ?app_nil_r; reflexivity.
  - destruct w as [[] ? ?]. unfold set_footer.
    crunch; split; try reflexivity; intros; rewrite ?List.filter_app; cbn;
      rewrite ?app_nil_r; reflexivity.
  - destruct w as [[] ? ?]. unfold set_timeline, strptime.
    crunch; split; try reflexivity; intros; rewrite ?List.filter_app; cbn;
      rewrite ?app_nil_r; reflexivity.
  - destruct (draw_calls_prefix w) as (p & made & -> & [rest Hmade] & _).
    pose proof (reachable_draw_order_quiet (self w)) as Hq.
    rewrite Hmade, Forall_app in Hq. destruct Hq as [Hq _].
    destruct w as [[] ? ?]. unfold_worlds. cbn. split; [reflexivity|]. intros i.
    rewrite List.filter_app, (filter_none (is_layout_of i) made), app_nil_r; [reflexivity|].
    eapply Forall_impl; [exact Hq|]. cbn. intros c [_ Hl]. apply Hl.
  - destruct w as [[] ? ?]. unfold save. crunch. split; [reflexivity|]. intros.
    rewrite List.filter_app. cbn. rewrite app_nil_r. reflexivity.
  - destruct (print_roadmap_prints print_area w) as (lines & r & ->). auto.
Qed.

Lemma laid_out_once_same (open : list nat) (w w' : World) :
  length (groups (self w')) = length (groups (self w)) ->
  (forall i, layout_count i (calls w') = layout_count i (calls w)) ->
  laid_out_once open w -> laid_out_once open w'.
Proof. intros Hlen Hcount Hw i. rewrite Hcount, Hlen. apply Hw. Qed.

Lemma run_laid_out_once (p : program) :
  forall open w,
    Forall (fun j => (j < length (groups (self w)))%nat) open ->
    laid_out_once open w ->
    laid_out_once open (run p w).1.
Proof.
  induction p as [|e|c k IHk|i f k IHk|t f s c fc a body IHbody k IHk];
    intros open w Hopen Hw; cbn [run].
  - exact Hw.
  - exact Hw.
  - destruct (invoke_keeps_groups c w) as [Hlen Hcount].
    assert (Hw' : laid_out_once open (invoke c w).1)
      by (eapply laid_out_once_same; eassumption).
    destruct (invoke c w) as [w' [e|[]]]; [exact Hw'|]. cbn [fst] in *.
    apply IHk; [rewrite Hlen; exact Hopen | exact Hw'].
  - apply IHk.
    + unfold populate; cbn. rewrite length_alter. exact Hopen.
    + eapply laid_out_once_same; [| |exact Hw]; unfold populate; cbn;
        [apply length_alter | reflexivity].
  - unfold with_add_group. rewrite add_group_enter_eq.
    set (n := length (groups (self w))) in *.
    set (entered := mk_World _ (calls w) (stdout w)).
    assert (Hlen1 : length (groups (self entered)) = S n)
      by (unfold entered; cbn; rewrite length_app; cbn; lia).
    assert (Hopen1 : Forall (fun j => (j < length (groups (self entered)))%nat) (n :: open)).
    { rewrite Hlen1. constructor; [lia|]. eapply Forall_impl; [exact Hopen|]. cbn. lia. }
    assert (Hn : n ∉ open).
    { intros Hin. rewrite Forall_forall in Hopen. specialize (Hopen n Hin). lia. }
    assert (Hw1 : laid_out_once (n :: open) entered).
    { intros i. rewrite Hlen1. specialize (Hw i). cbn [calls entered]. rewrite Hw.
      fold n. open_cases. }
    pose proof (IHbody n (n :: open) entered Hopen1 Hw1) as Hleft.
    pose proof (run_evolves (body n) entered) as Hev.
    destruct (run (body n) entered) as [w2 raised]. cbn [fst] in *.
    pose proof (ev_groups _ _ Hev) as Hgrow. rewrite Hlen1 in Hgrow.
    rewrite add_group_exit_eq.
    destruct (lookup_lt_is_Some_2 (groups (self w2)) n) as [g Hg]; [lia|].
    rewrite Hg. cbn.
    assert (Hw3 : forall w3,
               length (groups (self w3)) = length (groups (self w2)) ->
               (forall i, layout_count i (calls w3)
                          = (layout_count i (calls w2) + if Nat.eqb i n then 1 else 0)%nat) ->
               laid_out_once open w3).
    { intros w3 Hlen3 Hcount3 i. rewrite Hcount3, Hlen3, Hleft.
      destruct (Nat.eqb_spec i n) as [->|Hne].
      - open_cases.
      - open_cases. }
    assert (Hstep : forall cs g0 tl0, layout_count n (cs ++ [Call_Group_set_draw_position n g0 tl0]) = S (layout_count n cs)) by
      (intros; unfold layout_count; rewrite List.filter_app, length_app; cbn;
       rewrite Nat.eqb_refl; cbn; lia).
    destruct (Group_set_draw_position g (painter (self w2)) (timeline (self w2)))
      as [e|[g' p']]; cbn.
    + apply Hw3; [reflexivity|]. intros i. unfold layout_count, logged. cbn.
      rewrite List.filter_app, length_app. cbn. destruct (Nat.eqb i n); reflexivity.
    + set (w3 := with_painter p' _).
      assert (Hdone : laid_out_once open w3).
      { apply Hw3; [unfold w3; cbn; apply length_insert|]. intros i.
        unfold layout_count, w3. cbn.
        rewrite List.filter_app, length_app. cbn. destruct (Nat.eqb i n); reflexivity. }
      destruct raised as [e|]; [exact Hdone|]. apply IHk; [|exact Hdone].
      unfold w3; cbn. rewrite length_insert.
      eapply Forall_impl; [exact Hopen|]. cbn. fold n. lia.
Qed.

(** X1.  After any program run on a freshly constructed roadmap, every
    group of [self.groups] has exactly one [Group.set_draw_position] call in
    the log, and no such call names a position outside the list. *)
Theorem every_group_laid_out_once (wd ht : Z) (b : bool) (p : program) (i : nat) :
  let w := (run p (new_Roadmap wd ht b)).1 in
  layout_count i (calls w) = if bool_decide (i < length (groups (self w)))%nat then 1%nat else 0%nat.
Proof.
  intros w. pose proof (run_laid_out_once p [] (new_Roadmap wd ht b)) as Hrun.
  assert (Hnew : laid_out_once [] (new_Roadmap wd ht b)).
  { intros j. cbn. repeat case_bool_decide; cbn; try reflexivity; lia. }
  specialize (Hrun (List.Forall_nil _) Hnew i). fold w in Hrun. rewrite Hrun.
  repeat case_bool_decide; cbn; try reflexivity.
  exfalso. eapply not_elem_of_nil; eassumption.
Qed.

(** X16.  Once the marker is enabled and exists, no program disables or
    drops it. *)
Theorem marker_never_disabled (p : program) (w : World) :
  show_current_date_marker (self w) = true -> is_Some (marker (self w)) ->
  show_current_date_marker (self (run p w).1) = true
  /\ is_Some (marker (self (run p w).1)).
Proof.
  intros Hflag Hm. pose proof (run_evolves p w) as Hev.
  pose proof (ev_flag _ _ Hev Hflag) as Hflag'. split; [exact Hflag'|].
  apply (ev_sync _ _ Hev); [|exact Hflag']. split; auto.
Qed.

(** X11.  Whatever happens in [draw], also when it raises, only the painter
    and the call log change: title, timeline, groups, marker, footer and the
    flag are as before, and nothing is printed. *)
Theorem draw_changes_only_painter (w : World) :
  exists p,
    self (draw w).1 = set_painter p (self w)
    /\ stdout (draw w).1 = stdout w
    /\ calls w `prefix_of` calls (draw w).1.
Proof.
  destruct (draw_calls_prefix w) as (p & made & -> & _).
  exists p. repeat split. exists made. reflexivity.
Qed.

End ProgramInvariants.

(** ** Orders of calls and failures half-way *)

Lemma strptime_ymd_valid `{!Interpreter} (s : string) (dt : datetime) :
  strptime_ymd s = inr dt ->
  valid_date (year dt) (month dt) (day dt) = true
  /\ dt = midnight (year dt) (month dt) (day dt).
Proof.
  unfold strptime_ymd. intros Hs.
  repeat case_match; try discriminate. inversion Hs; subst. cbn. auto.
Qed.

Section Sequences.
Context `{!Collaborators} `{!Interpreter}.

(** X2.  A group that is already in [self.groups] is not laid out again by
    anything a later program does: no method revisits the groups, not even
    [set_timeline] when it replaces the timeline. *)
Theorem existing_groups_never_laid_out_again (p : program) (w : World) (i : nat) :
  (i < length (groups (self w)))%nat ->
  List.filter (is_layout_of i) (calls (run p w).1) = List.filter (is_layout_of i) (calls w).
Proof. intros Hi. apply (ev_layouts _ _ (run_evolves p w)), Hi. Qed.

(** X10.  With draw methods that return, drawing a complete roadmap twice
    makes the draw calls of the fixed order twice: [draw] uses nothing up. *)
Theorem draw_twice (w : World) (t : Title) (tl : Timeline) (m : Marker) (f : Footer) :
  draw_methods_return ->
  title (self w) = Some t -> timeline (self w) = Some tl ->
  marker (self w) = Some m -> footer (self w) = Some f ->
  exists p,
    (draw;; draw) w
    = (with_painter p
         (logged (draw_order t tl (groups (self w)) m f
                  ++ draw_order t tl (groups (self w)) m f) w),
       inr tt).
Proof.
  intros Hret Ht Htl Hm Hf. unfold mbind, M_bind.
  destruct (draw_complete w t tl m f Hret Ht Htl Hm Hf) as [p1 ->].
  match goal with |- context [draw ?w1] =>
    destruct (draw_complete w1 t tl m f Hret) as [p2 ->] end;
    try (destruct w as [[] ? ?]; cbn in *; assumption).
  exists p2. destruct w as [[] ? ?]. unfold_worlds; cbn. rewrite <- app_assoc. reflexivity.
Qed.

(** X14.  [set_timeline] on a roadmap whose flag is on while no marker
    object exists fails half-way: the timeline has been replaced and laid
    out, and the painter updated, when [AttributeError] is raised. *)
Theorem set_timeline_marker_missing (mode : TimelineMode) (s : string) (d : datetime)
    (n : Z) (font : string) (font_size : Z) (font_colour fill_colour : string)
    (w : World) (tl' : Timeline) (p' : Painter) :
  strptime_ymd s = inr d ->
  show_current_date_marker (self w) = true -> marker (self w) = None ->
  Timeline_set_draw_position
    (new_Timeline mode d n font font_size font_colour fill_colour) (painter (self w))
  = inr (tl', p') ->
  set_timeline mode (Some (PyStr s)) n font font_size font_colour fill_colour w
  = (mk_World (set_painter p' (set_timeline_attr (Some tl') (self w)))
              (calls w ++ [Call_Timeline_set_draw_position
                             (new_Timeline mode d n font font_size font_colour
                                           fill_colour)])
              (stdout w),
     inl AttributeError).
Proof.
  intros Hs Hflag Hm Hlay.
  destruct w as [[wd ht fl t tl f m pt gs ly md] cs out]; cbn in Hflag, Hm, Hlay; subst.
  unfold set_timeline, strptime; unfold_monad; cbn. rewrite Hs. cbn. rewrite Hlay.
  reflexivity.
Qed.

(** X15.  When [set_timeline] returns, [start] was a [str] that parses to a
    calendar date that exists, in whatever decimal digits [\d] admits, and
    the timeline that is laid out was built from that date at midnight. *)
Theorem set_timeline_returns_with_valid_start (mode : TimelineMode) (start : option pyobj)
    (n : Z) (font : string) (font_size : Z) (font_colour fill_colour : string)
    (w w' : World) :
  set_timeline mode start n font font_size font_colour fill_colour w = (w', inr tt) ->
  exists s y m d rest,
    start = Some (PyStr s)
    /\ strptime_ymd s = inr (midnight y m d)
    /\ valid_date y m d = true
    /\ calls w'
       = calls w
         ++ Call_Timeline_set_draw_position
              (new_Timeline mode (midnight y m d) n font font_size font_colour fill_colour)
            :: rest.
Proof.
  intros Hok.
  destruct start as [[s| | |]|];
    try (rewrite set_timeline_not_str in Hok by discriminate; discriminate).
  destruct (strptime_ymd s) as [e|dt] eqn:Hs.
  - rewrite (set_timeline_malformed _ _ _ _ _ _ _ _ _ Hs) in Hok. discriminate.
  - destruct (strptime_ymd_valid s dt Hs) as [Hvalid Hmid].
    destruct (set_timeline_constructs mode s dt n font font_size font_colour fill_colour w Hs)
      as [rest Hcalls].
    rewrite Hok in Hcalls. cbn in Hcalls.
    exists s, (year dt), (month dt), (day dt), rest.
    rewrite <- Hmid. auto.
Qed.

Lemma set_timeline_returns_unmarked (mode : TimelineMode) (s : string) (d : datetime)
    (n : Z) (font : string) (font_size : Z) (font_colour fill_colour : string)
    (w : World) :
  layout_methods_return ->
  strptime_ymd s = inr d ->
  show_current_date_marker (self w) = false ->
  exists tl' p',
    set_timeline mode (Some (PyStr s)) n font font_size font_colour fill_colour w
    = (mk_World (set_painter p' (set_timeline_attr (Some tl') (self w)))
                (calls w ++ [Call_Timeline_set_draw_position
                               (new_Timeline mode d n font font_size font_colour
                                             fill_colour)])
                (stdout w), inr tt).
Proof.
  intros (_ & HTl & _) Hs Hflag.
  destruct w as [[wd ht fl t tl f m0 pt gs ly md] cs out]; cbn in Hflag; subst.
  unfold set_timeline, strptime; unfold_monad; cbn. rewrite Hs. cbn.
  destruct (HTl (new_Timeline mode d n font font_size font_colour fill_colour) pt)
    as [[tl' p1] ->]. cbn.
  exists tl', p1. reflexivity.
Qed.

(** X13.  With layout methods that return: when [set_marker] is called
    only after [set_timeline], no label position is ever computed; the marker
    that [set_footer] hands to the line positioning is the one that
    [set_marker] built. *)
Theorem marker_configured_late_gets_no_label (s footer_text : string) (d : datetime)
    (w : World) :
  layout_methods_return ->
  strptime_ymd s = inr d ->
  show_current_date_marker (self w) = false ->
  exists w',
    run (marker_after_timeline s footer_text) w = (w', None)
    /\ calls w'
       = calls w
         ++ [Call_Timeline_set_draw_position
               (new_Timeline MONTHLY d 12 "Arial" 10 "Black" "lightgrey");
             Call_Marker_set_line_draw_position
               (new_Marker "Arial" 10 "Black" "Black" 2 "dashed");
             Call_Footer_set_draw_position
               (Footer_set_text footer_text (new_Footer footer_text "Arial" 18 "Black"))
               (last_y_pos (self w))].
Proof.
  intros Hret Hs Hflag. unfold marker_after_timeline. cbn [run invoke].
  destruct (set_timeline_returns_unmarked MONTHLY s d 12 "Arial" 10 "Black" "lightgrey" w
              Hret Hs Hflag) as (tl' & p1 & ->).
  rewrite set_marker_eq.
  match goal with |- context [set_footer ?a ?b ?c ?e ?w1] =>
    destruct (set_footer_returns_marked a b c e w1 _ Hret eq_refl eq_refl)
      as (f' & m2 & p4 & ->) end.
  eexists. split; [reflexivity|].
  cbn [calls]. rewrite <- app_assoc. reflexivity.
Qed.

(** X12.  With layout methods that return and a timeline set: of two nested
    [add_group] blocks the outer group is appended first and the inner group
    is laid out first; the groups are both in the list and both laid out
    whether the inner body returns or raises, and what it raised comes out. *)
Theorem nested_blocks_unwind (outer inner : string) (raised : option exn) (w : World)
    (tl : Timeline) :
  layout_methods_return ->
  timeline (self w) = Some tl ->
  let n := length (groups (self w)) in
  exists w',
    run (nested_blocks outer inner raised) w = (w', raised)
    /\ length (groups (self w')) = S (S n)
    /\ calls w'
       = calls w
         ++ [Call_Group_set_draw_position (S n)
               (new_Group inner "Arial" 10 "Black" "lightgrey" "centre") (Some tl);
             Call_Group_set_draw_position n
               (new_Group outer "Arial" 10 "Black" "lightgrey" "centre") (Some tl)].
Proof.
  intros (_ & _ & _ & _ & HG & _) Htl n.
  destruct w as [[wd ht fl t tl0 f m pt gs ly md] cs out]. cbn in Htl, n. subst tl0.
  unfold nested_blocks. cbn [run]. unfold with_add_group.
  rewrite !add_group_enter_eq. cbn [self groups set_groups calls stdout fst snd].
  assert (Hrun : forall w0, run match raised with Some e => Raise e | None => Return end w0
                            = (w0, raised)) by (intros; destruct raised; reflexivity).
  rewrite Hrun. rewrite add_group_exit_eq. cbn [self groups set_groups timeline painter].
  rewrite length_app. cbn [length]. replace (length gs + 1)%nat with (S n) by (unfold n; lia).
  fold n.
  assert (Hin : ((gs ++ [new_Group outer "Arial" 10 "Black" "lightgrey" "centre"])
                 ++ [new_Group inner "Arial" 10 "Black" "lightgrey" "centre"]) !! S n
                = Some (new_Group inner "Arial" 10 "Black" "lightgrey" "centre")).
  { apply list_lookup_middle. rewrite length_app. cbn. unfold n. lia. }
  rewrite Hin. cbn.
  destruct (HG (new_Group inner "Arial" 10 "Black" "lightgrey" "centre") pt tl)
    as [[g1 p1] ->]. cbn.
  assert (Hout : <[S n := g1]> ((gs ++ [new_Group outer "Arial" 10 "Black" "lightgrey" "centre"])
                 ++ [new_Group inner "Arial" 10 "Black" "lightgrey" "centre"]) !! n
                = Some (new_Group outer "Arial" 10 "Black" "lightgrey" "centre")).
  { rewrite list_lookup_insert_ne by lia. rewrite lookup_app_l by (rewrite length_app; cbn; unfold n; lia).
    apply list_lookup_middle. reflexivity. }
  destruct raised as [e|]; cbn [run]; rewrite add_group_exit_eq; cbn; rewrite Hout; cbn;
    destruct (HG (new_Group outer "Arial" 10 "Black" "lightgrey" "centre") p1 tl)
      as [[g2 p2] ->]; cbn;
    (eexists; split; [reflexivity|]; cbn; split;
     [rewrite !length_insert, !length_app; cbn; unfold n; lia
     |rewrite <- app_assoc; reflexivity]).
Qed.
End Sequences.

(** ** Witnesses and examples for the further properties *)

(** Three groups, one block failing: each group has its one layout call. *)
Example every_group_laid_out_once_example :
  let w := (@run TestDouble.collaborators TestDouble.interpreter
              (Do (call_set_timeline MONTHLY (Some (PyStr "2024-01-01")) 3 "Arial" 10
                                     "Black" "lightgrey")
                  (with_groups [("A", []); ("B", [TestDouble.add_task "T"])]
                     (With_add_group "C" "Arial" 10 "Black" "lightgrey" "centre"
                        (fun _ => Raise (CallerError "boom")) Return)))
              default_Roadmap).1 in
  length (groups (self w)) = 3%nat
  /\ (fun i => layout_count i (calls w)) <$> [0; 1; 2; 3]%nat = [1; 1; 1; 0]%nat.
Proof. vm_compute. split; reflexivity. Qed.

Lemma existing_groups_never_laid_out_again_witness :
  (0 < length (groups (self TestDouble.complete_roadmap)))%nat
  /\ List.filter (is_layout_of 0)
       (calls (@run TestDouble.collaborators TestDouble.interpreter
                 (Do (call_set_timeline MONTHLY (Some (PyStr "2025-06-01")) 6 "Arial" 10
                                        "Black" "lightgrey") Return)
                 TestDouble.complete_roadmap).1)
     = List.filter (is_layout_of 0) (calls TestDouble.complete_roadmap).
Proof.
  assert (Hlen : (0 < length (groups (self TestDouble.complete_roadmap)))%nat)
    by (vm_compute; lia).
  split; [exact Hlen|].
  exact (@existing_groups_never_laid_out_again TestDouble.collaborators TestDouble.interpreter
           _ TestDouble.complete_roadmap 0%nat Hlen).
Defined.

Lemma print_roadmap_unknown_area_witness :
  "marker" <> "all" /\ "marker" <> "title" /\ "marker" <> "timeline"
  /\ "marker" <> "groups" /\ "marker" <> "footer"
  /\ @print_roadmap TestDouble.collaborators "marker" default_Roadmap
     = (default_Roadmap, inr tt).
Proof.
  repeat (split; [discriminate|]).
  apply (@print_roadmap_unknown_area TestDouble.collaborators); discriminate.
Defined.

(** The third level of [deep_group] is not in the dump. *)
Example dump_omits_third_level :
  stdout (@print_roadmap TestDouble.collaborators "groups" TestDouble.deep_roadmap).1
  = ["Group: text=Core, x=30, y=60, w=1140, h=40";
     "└────────Build, start=2024-01-15 00:00:00, end=2024-02-15 00:00:00, x=40, y=80, w=300, h=20";
     "         └────Parellel Task: Test, start=2024-01-20 00:00:00, end=2024-02-01 00:00:00, x=60, y=100, w=100, h=20"].
Proof. vm_compute. reflexivity. Qed.

Lemma draw_twice_witness :
  exists t tl m f,
    title (self TestDouble.complete_roadmap) = Some t
    /\ timeline (self TestDouble.complete_roadmap) = Some tl
    /\ marker (self TestDouble.complete_roadmap) = Some m
    /\ footer (self TestDouble.complete_roadmap) = Some f
    /\ exists p,
         (@draw TestDouble.collaborators;; @draw TestDouble.collaborators)
           TestDouble.complete_roadmap
         = (with_painter p
              (logged (draw_order t tl (groups (self TestDouble.complete_roadmap)) m f
                       ++ draw_order t tl (groups (self TestDouble.complete_roadmap)) m f)
                      TestDouble.complete_roadmap),
            inr tt).
Proof.
  do 4 eexists. do 4 (split; [reflexivity|]).
  apply (@draw_twice TestDouble.collaborators TestDouble.complete_roadmap);
    [exact test_double_draws_return | reflexivity ..].
Defined.

Lemma nested_blocks_unwind_witness :
  exists tl,
    timeline (self TestDouble.complete_roadmap) = Some tl
    /\ exists w',
         @run TestDouble.collaborators TestDouble.interpreter
           (nested_blocks "Outer" "Inner" (Some (CallerError "boom")))
           TestDouble.complete_roadmap
         = (w', Some (CallerError "boom"))
         /\ length (groups (self w'))
            = S (S (length (groups (self TestDouble.complete_roadmap)))).
Proof.
  eexists. split; [reflexivity|].
  destruct (@nested_blocks_unwind TestDouble.collaborators TestDouble.interpreter
              "Outer" "Inner" (Some (CallerError "boom")) TestDouble.complete_roadmap _
              test_double_layouts_return eq_refl) as (w' & Hrun & Hlen & _).
  exists w'. split; [exact Hrun | exact Hlen].
Defined.

Lemma marker_configured_late_gets_no_label_witness :
  @layout_methods_return TestDouble.collaborators
  /\ @strptime_ymd TestDouble.interpreter "2024-01-01" = inr (midnight 2024 1 1)
  /\ show_current_date_marker (self default_Roadmap) = false
  /\ exists w',
       @run TestDouble.collaborators TestDouble.interpreter
         (marker_after_timeline "2024-01-01" "The end") default_Roadmap
       = (w', None)
       /\ call_name <$> calls w'
          = ["Painter"; "Painter.set_background_colour"; "Timeline.set_draw_position";
             "Marker.set_line_draw_position"; "Footer.set_draw_position"].
Proof.
  split; [exact test_double_layouts_return|].
  split; [vm_compute; reflexivity|].
  split; [reflexivity|].
  destruct (@marker_configured_late_gets_no_label TestDouble.collaborators TestDouble.interpreter
              "2024-01-01" "The end" (midnight 2024 1 1) default_Roadmap
              test_double_layouts_return eq_refl eq_refl) as (w' & Hrun & Hcalls).
  exists w'. split; [exact Hrun|]. rewrite Hcalls. reflexivity.
Defined.

Lemma set_timeline_marker_missing_witness :
  exists tl' p',
    @strptime_ymd TestDouble.interpreter "2024-01-01" = inr (midnight 2024 1 1)
    /\ show_current_date_marker (self (new_Roadmap 1200 600 true)) = true
    /\ marker (self (new_Roadmap 1200 600 true)) = None
    /\ @Timeline_set_draw_position TestDouble.collaborators
         (@new_Timeline TestDouble.collaborators MONTHLY (midnight 2024 1 1) 3 "Arial" 10
            "Black" "lightgrey")
         (painter (self (new_Roadmap 1200 600 true)))
       = inr (tl', p')
    /\ (@set_timeline TestDouble.collaborators TestDouble.interpreter MONTHLY
          (Some (PyStr "2024-01-01")) 3 "Arial" 10 "Black" "lightgrey"
          (new_Roadmap 1200 600 true)).2
       = inl AttributeError
    /\ timeline (self (@set_timeline TestDouble.collaborators TestDouble.interpreter MONTHLY
                         (Some (PyStr "2024-01-01")) 3 "Arial" 10 "Black" "lightgrey"
                         (new_Roadmap 1200 600 true)).1)
       = Some tl'.
Proof.
  do 2 eexists.
  split; [vm_compute; reflexivity|]. split; [reflexivity|]. split; [reflexivity|].
  split; [vm_compute; reflexivity|].
  rewrite (@set_timeline_marker_missing TestDouble.collaborators TestDouble.interpreter MONTHLY
             "2024-01-01" (midnight 2024 1 1) 3 "Arial" 10 "Black" "lightgrey"
             (new_Roadmap 1200 600 true) _ _ eq_refl eq_refl eq_refl eq_refl).
  split; reflexivity.
Defined.

Lemma set_timeline_returns_with_valid_start_witness :
  exists w',
    @set_timeline TestDouble.collaborators TestDouble.interpreter MONTHLY
      (Some (PyStr "２０２４-02-29")) 12 "Arial" 10 "Black" "lightgrey" default_Roadmap
    = (w', inr tt)
    /\ exists s y m d,
         Some (PyStr "２０２４-02-29") = Some (PyStr s)
         /\ @strptime_ymd TestDouble.interpreter s = inr (midnight y m d)
         /\ valid_date y m d = true.
Proof.
  eexists. split; [vm_compute; reflexivity|].
  destruct (@set_timeline_returns_with_valid_start TestDouble.collaborators
              TestDouble.interpreter MONTHLY (Some (PyStr "２０２４-02-29")) 12 "Arial" 10 "Black"
              "lightgrey" default_Roadmap _ eq_refl)
    as (s & y & m & d & rest & Hstart & Hparse & Hvalid & _).
  exists s, y, m, d. auto.
Defined.

Lemma marker_never_disabled_witness :
  show_current_date_marker (self TestDouble.marked_roadmap) = true
  /\ is_Some (marker (self TestDouble.marked_roadmap))
  /\ show_current_date_marker
       (self (@run TestDouble.collaborators TestDouble.interpreter TestDouble.unmarked
                   TestDouble.marked_roadmap).1) = true
  /\ is_Some (marker (self (@run TestDouble.collaborators TestDouble.interpreter
                              TestDouble.unmarked TestDouble.marked_roadmap).1)).
Proof.
  assert (Hm : is_Some (marker (self TestDouble.marked_roadmap)))
    by (eexists; reflexivity).
  split; [reflexivity|]. split; [exact Hm|].
  exact (@marker_never_disabled TestDouble.collaborators TestDouble.interpreter
           TestDouble.unmarked TestDouble.marked_roadmap eq_refl Hm).
Defined.
